(** * Ethio bingo server: the game manager, the room manager and the
      request handlers, embedded from [game-manager.ts], [room-manager.ts]
      and [server.ts], with the properties of the specification settled
      against them. *)

From Stdlib Require Import ZArith QArith Qround String List Bool Lia Lqa.
From stdpp Require Import base option list sorting gmap sets strings pretty.

Close Scope Q_scope.
Local Open Scope string_scope.
Local Open Scope list_scope.
Local Open Scope Z_scope.

(** ** JavaScript [Map] with string keys

    A [Map] iterates in insertion order, and the room manager reads that
    order ([Array.from(room.players.values())[0]]), so a map is a list of
    bindings, oldest first.  [set] on a key that is present replaces the
    value where it stands; on a new key it appends. *)

Module JsMap.
Section Ops.
Context {V : Type}.

Fixpoint get (k : string) (m : list (string * V)) : option V :=
  match m with
  | [] => None
  | (k', v) :: rest => if String.eqb k' k then Some v else get k rest
  end.

Fixpoint set (k : string) (v : V) (m : list (string * V)) : list (string * V) :=
  match m with
  | [] => [(k, v)]
  | (k', v') :: rest =>
      if String.eqb k' k then (k, v) :: rest else (k', v') :: set k v rest
  end.

Fixpoint delete (k : string) (m : list (string * V)) : list (string * V) :=
  match m with
  | [] => []
  | (k', v') :: rest =>
      if String.eqb k' k then delete k rest else (k', v') :: delete k rest
  end.

Definition size (m : list (string * V)) : Z := Z.of_nat (length m).

Definition values (m : list (string * V)) : list V := map snd m.

Definition keys (m : list (string * V)) : list string := map fst m.
End Ops.
End JsMap.

(** ** Data model of [game-manager.ts] *)

Module GameSettings.
Record t := mk {
  stake : Z;
  autoCall : bool;
  callInterval : Z;
  winPatterns : list string
}.
End GameSettings.

Module GamePlayer.
Record t := mk {
  id : string;
  name : string;
  board : list Z;
  markedNumbers : gset Z;
  isReady : bool;
  hasWon : bool;
  winTime : option Z;
  score : Z
}.
End GamePlayer.

Module Game.
Record t := mk {
  id : string;
  roomCode : string;
  type : string;
  players : list (string * GamePlayer.t);
  calledNumbers : list Z;
  currentNumber : option Z;
  gameStarted : bool;
  gameEnded : bool;
  winner : option string;
  winPattern : option string;
  boardSeed : Z;
  settings : GameSettings.t
}.
End Game.

(** The two private fields of the [GameManager] class. *)
Record GameManager := mkGameManager {
  games : list (string * Game.t);
  onlinePlayers : gset string
}.

(** ** Board generation *)

(** A [Set<number>] whose insertion order is read back by [Array.from]. *)
Definition setAdd (x : Z) (numbers : list Z) : list Z :=
  if bool_decide (x ∈ numbers) then numbers else numbers ++ [x].

(** [Array.prototype.sort((a, b) => a - b)]. *)
Definition sortAscending (numbers : list Z) : list Z := merge_sort Z.le numbers.

(** [while (numbers.size < count) numbers.add(random(min, max))].
    [fuel] bounds the number of iterations; [None] means the loop is still
    running when the fuel is spent. *)
Fixpoint drawDistinct (fuel : nat) (random : Z → Z → Z) (min max count : Z)
    (numbers : list Z) : option (list Z) :=
  if Z.of_nat (length numbers) <? count then
    match fuel with
    | O => None
    | S fuel' =>
        drawDistinct fuel' random min max count (setAdd (random min max) numbers)
    end
  else Some numbers.

Definition columns75 : list (Z * Z) :=
  [(1, 15); (16, 30); (31, 45); (46, 60); (61, 75)].

Definition columns90 : list (Z * Z) :=
  [(1, 10); (11, 20); (21, 30); (31, 40); (41, 50);
   (51, 60); (61, 70); (71, 80); (81, 90)].

(** The body of [for (let col = 0; col < 5; col++)], over the columns left. *)
Fixpoint forColumns75 (fuel : nat) (random : Z → Z → Z) (columns : list (Z * Z))
    (board : list Z) : option (list Z) :=
  match columns with
  | [] => Some board
  | (min, max) :: rest =>
      numbers ← drawDistinct fuel random min max 5 [];
      forColumns75 fuel random rest (board ++ sortAscending numbers)
  end.

Definition generate75BallBoard (fuel : nat) (random : Z → Z → Z) : option (list Z) :=
  forColumns75 fuel random columns75 [].

Fixpoint forColumns90 (fuel : nat) (random : Z → Z → Z) (columns : list (Z * Z))
    (board : list Z) : option (list Z) :=
  match columns with
  | [] => Some board
  | (min, max) :: rest =>
      let count := random 1 3 in
      numbers ← drawDistinct fuel random min max count [];
      forColumns90 fuel random rest (board ++ numbers)
  end.

Definition generate90BallBoard (fuel : nat) (random : Z → Z → Z) : option (list Z) :=
  forColumns90 fuel random columns90 [].

Definition generate30BallBoard (fuel : nat) (random : Z → Z → Z) : option (list Z) :=
  numbers ← drawDistinct fuel random 1 30 9 [];
  Some (sortAscending numbers).

Definition generatePatternBoard (fuel : nat) (random : Z → Z → Z) : option (list Z) :=
  generate75BallBoard fuel random.

(** The result object of [startGame]. *)
Module StartResult.
Record t := mk {
  success : bool;
  board : option (list Z);
  error : option string
}.
Definition failure (msg : string) : t := mk false None (Some msg).
End StartResult.

Section SeededBoards.
(** [Math.sin] on the seed is a floating-point primitive: it is a
    parameter of the model.  The arithmetic around it is taken over the
    rationals. *)
Variable Math_sin : Z → Q.

(** [seed++] increments the callee's own copy of [seed]: the caller's
    seed is untouched, so [seededRandom] is a function of its argument. *)
Definition seededRandom (seed : Z) : Q :=
  let x := (Math_sin seed * 10000)%Q in
  (x - inject_Z (Qfloor x))%Q.

(** The closure [random] of [generateBoard]; it captures [seed]. *)
Definition random (seed : Z) (min max : Z) : Z :=
  Qfloor (seededRandom seed * inject_Z (max - min + 1))%Q + min.

Definition generateBoard (fuel : nat) (gameType : string) (seed : Z)
    : option (list Z) :=
  if String.eqb gameType "75ball" then generate75BallBoard fuel (random seed)
  else if String.eqb gameType "90ball" then generate90BallBoard fuel (random seed)
  else if String.eqb gameType "30ball" then generate30BallBoard fuel (random seed)
  else if String.eqb gameType "pattern" then generatePatternBoard fuel (random seed)
  else generate75BallBoard fuel (random seed).

(** Writing back a game that was mutated in place: the binding keeps its
    position in the map. *)
Definition storeGame (roomCode : string) (game : Game.t) (gm : GameManager)
    : GameManager :=
  mkGameManager (JsMap.set roomCode game (games gm)) (onlinePlayers gm).

(** [for (const player of game.players.values())] in [startGame]: one call
    of [generateBoard] per player. *)
Fixpoint assignBoards (fuel : nat) (gameType : string) (seed : Z)
    (players : list (string * GamePlayer.t))
    : option (list (string * GamePlayer.t)) :=
  match players with
  | [] => Some []
  | (key, player) :: rest =>
      board ← generateBoard fuel gameType seed;
      let player' :=
        GamePlayer.mk (GamePlayer.id player) (GamePlayer.name player) board ∅
          (GamePlayer.isReady player) (GamePlayer.hasWon player)
          (GamePlayer.winTime player) (GamePlayer.score player) in
      rest' ← assignBoards fuel gameType seed rest;
      Some ((key, player') :: rest')
  end.

Definition startGame (fuel : nat) (roomCode : string) (gm : GameManager)
    : option (GameManager * StartResult.t) :=
  match JsMap.get roomCode (games gm) with
  | None => Some (gm, StartResult.failure "Game not found")
  | Some game =>
      if Game.gameStarted game then
        Some (gm, StartResult.failure "Game already started")
      else if JsMap.size (Game.players game) <? 2 then
        Some (gm, StartResult.failure "Need at least 2 players to start")
      else
        players' ← assignBoards fuel (Game.type game) (Game.boardSeed game)
                     (Game.players game);
        board ← generateBoard fuel (Game.type game) (Game.boardSeed game);
        let game' :=
          Game.mk (Game.id game) (Game.roomCode game) (Game.type game) players'
            (Game.calledNumbers game) (Game.currentNumber game) true
            (Game.gameEnded game) (Game.winner game) (Game.winPattern game)
            (Game.boardSeed game) (Game.settings game) in
        Some (storeGame roomCode game' gm,
              StartResult.mk true (Some board) None)
  end.

End SeededBoards.

(** ** The other operations of [GameManager] *)

(** [gameId] is the value of [v4.generate()] and [seed] the value of
    [Math.floor(Math.random() * 1000000)]. *)
Definition createGame (gameId : string) (seed : Z) (roomCode gameType : string)
    (settings : GameSettings.t) (gm : GameManager) : GameManager * Game.t :=
  let game :=
    Game.mk gameId roomCode gameType [] [] None false false None None seed
      settings in
  (storeGame roomCode game gm, game).

Definition addPlayerToGame (roomCode playerId playerName : string)
    (gm : GameManager) : GameManager * bool :=
  match JsMap.get roomCode (games gm) with
  | None => (gm, false)
  | Some game =>
      if Game.gameStarted game then (gm, false)
      else
        let player := GamePlayer.mk playerId playerName [] ∅ false false None 0 in
        let game' :=
          Game.mk (Game.id game) (Game.roomCode game) (Game.type game)
            (JsMap.set playerId player (Game.players game))
            (Game.calledNumbers game) (Game.currentNumber game)
            (Game.gameStarted game) (Game.gameEnded game) (Game.winner game)
            (Game.winPattern game) (Game.boardSeed game) (Game.settings game) in
        (mkGameManager (JsMap.set roomCode game' (games gm))
           ({[playerId]} ∪ onlinePlayers gm), true)
  end.

Definition removePlayerFromGame (roomCode playerId : string) (gm : GameManager)
    : GameManager :=
  match JsMap.get roomCode (games gm) with
  | None => gm
  | Some game =>
      let players' := JsMap.delete playerId (Game.players game) in
      let game' :=
        Game.mk (Game.id game) (Game.roomCode game) (Game.type game) players'
          (Game.calledNumbers game) (Game.currentNumber game)
          (Game.gameStarted game) (Game.gameEnded game) (Game.winner game)
          (Game.winPattern game) (Game.boardSeed game) (Game.settings game) in
      let online' := onlinePlayers gm ∖ {[playerId]} in
      if JsMap.size players' =? 0 then
        mkGameManager (JsMap.delete roomCode (games gm)) online'
      else mkGameManager (JsMap.set roomCode game' (games gm)) online'
  end.

(** The [switch] of [generateRandomNumber]. *)
Definition maxNumberOf (gameType : string) : Z :=
  if String.eqb gameType "75ball" then 75
  else if String.eqb gameType "pattern" then 75
  else if String.eqb gameType "90ball" then 90
  else if String.eqb gameType "30ball" then 30
  else 75.

(** The [do ... while (calledNumbers.includes(number))] loop.  [draws]
    lists the successive values of [Math.floor(Math.random() * maxNumber)];
    [None] means every listed draw was rejected and the loop goes on. *)
Fixpoint resample (draws : list Z) (calledNumbers : list Z) : option Z :=
  match draws with
  | [] => None
  | r :: rest =>
      let number := r + 1 in
      if bool_decide (number ∈ calledNumbers) then resample rest calledNumbers
      else Some number
  end.

(** Outer [None]: still looping; [Some None]: the method returned [null]. *)
Definition generateRandomNumber (draws : list Z) (gameType : string)
    (calledNumbers : list Z) : option (option Z) :=
  let maxNumber := maxNumberOf gameType in
  if Z.of_nat (length calledNumbers) >=? maxNumber then Some None
  else number ← resample draws calledNumbers; Some (Some number).

Definition callNumber (draws : list Z) (roomCode : string) (gm : GameManager)
    : option (GameManager * option Z) :=
  match JsMap.get roomCode (games gm) with
  | None => Some (gm, None)
  | Some game =>
      if negb (Game.gameStarted game) || Game.gameEnded game then Some (gm, None)
      else
        drawn ← generateRandomNumber draws (Game.type game)
                  (Game.calledNumbers game);
        match drawn with
        | None => Some (gm, None)
        | Some number =>
            let game' :=
              Game.mk (Game.id game) (Game.roomCode game) (Game.type game)
                (Game.players game) (Game.calledNumbers game ++ [number])
                (Some number) (Game.gameStarted game) (Game.gameEnded game)
                (Game.winner game) (Game.winPattern game) (Game.boardSeed game)
                (Game.settings game) in
            Some (storeGame roomCode game' gm, Some number)
        end
  end.

(** *** Win detection *)

(** [grid[row][col] = board[i] || 0] with [i = 5 * row + col]: a missing
    cell reads as [0]. *)
Definition boardToGrid (board : list Z) : list (list Z) :=
  map (λ row, map (λ col, nth (5 * row + col)%nat board 0) (seq 0 5)) (seq 0 5).

Definition cell (grid : list (list Z)) (row col : nat) : Z :=
  nth col (nth row grid []) 0.

Definition has (markedNumbers : gset Z) (x : Z) : bool :=
  bool_decide (x ∈ markedNumbers).

Definition freeSpace (row col : nat) : bool := Nat.eqb row 2 && Nat.eqb col 2.

Definition checkPattern (grid : list (list Z)) (markedNumbers : gset Z)
    (pattern : string) : bool :=
  if String.eqb pattern "row" then
    existsb (λ row,
      forallb (λ col, freeSpace row col || has markedNumbers (cell grid row col))
        (seq 0 5)) (seq 0 5)
  else if String.eqb pattern "column" then
    existsb (λ col,
      forallb (λ row, freeSpace row col || has markedNumbers (cell grid row col))
        (seq 0 5)) (seq 0 5)
  else if String.eqb pattern "diagonal" then
    forallb (λ i, Nat.eqb i 2 || has markedNumbers (cell grid i i)) (seq 0 5)
    || forallb (λ i, Nat.eqb i 2 || has markedNumbers (cell grid i (4 - i)))
         (seq 0 5)
  else if String.eqb pattern "four-corners" then
    has markedNumbers (cell grid 0 0) && has markedNumbers (cell grid 0 4)
    && has markedNumbers (cell grid 4 0) && has markedNumbers (cell grid 4 4)
  else if String.eqb pattern "full-house" then
    forallb (λ row,
      forallb (λ col, freeSpace row col || has markedNumbers (cell grid row col))
        (seq 0 5)) (seq 0 5)
  else false.

Definition checkForWin (board : list Z) (markedNumbers : gset Z)
    (winPatterns : list string) : option string :=
  let grid := boardToGrid board in
  find (checkPattern grid markedNumbers) winPatterns.

(** [Math.floor(pot * 0.8)] on an integer pot, taken exactly.  The code
    multiplies in binary64: the two agree while [0 <= pot] and the product
    stays below [2^50], and can differ by rounding on larger pots. *)
Definition calculateScore (stake playerCount : Z) : Z :=
  let pot := stake * playerCount in
  (pot * 4) / 5.

(** [if (winPattern)]: [null] and the empty string are falsy. *)
Definition truthy (s : option string) : bool :=
  match s with
  | Some p => negb (String.eqb p "")
  | None => false
  end.

(** The body of [markNumber] once the game and the player are found:
    the mark, the win check and what a win records.  [now] is the value of
    [Date.now()]. *)
Definition recordMark (now : Z) (playerId : string) (number : Z)
    (game : Game.t) (player : GamePlayer.t) : Game.t :=
  let marked := {[number]} ∪ GamePlayer.markedNumbers player in
  let winPattern :=
    checkForWin (GamePlayer.board player) marked
      (GameSettings.winPatterns (Game.settings game)) in
  if truthy winPattern then
    let player' :=
      GamePlayer.mk (GamePlayer.id player) (GamePlayer.name player)
        (GamePlayer.board player) marked (GamePlayer.isReady player)
        true (Some now)
        (GamePlayer.score player
         + calculateScore (GameSettings.stake (Game.settings game))
             (JsMap.size (Game.players game))) in
    Game.mk (Game.id game) (Game.roomCode game) (Game.type game)
      (JsMap.set playerId player' (Game.players game))
      (Game.calledNumbers game) (Game.currentNumber game)
      (Game.gameStarted game) true (Some playerId) winPattern
      (Game.boardSeed game) (Game.settings game)
  else
    let player' :=
      GamePlayer.mk (GamePlayer.id player) (GamePlayer.name player)
        (GamePlayer.board player) marked (GamePlayer.isReady player)
        (GamePlayer.hasWon player) (GamePlayer.winTime player)
        (GamePlayer.score player) in
    Game.mk (Game.id game) (Game.roomCode game) (Game.type game)
      (JsMap.set playerId player' (Game.players game))
      (Game.calledNumbers game) (Game.currentNumber game)
      (Game.gameStarted game) (Game.gameEnded game)
      (Game.winner game) (Game.winPattern game)
      (Game.boardSeed game) (Game.settings game).

Definition markNumber (now : Z) (roomCode playerId : string) (number : Z)
    (gm : GameManager) : GameManager * bool :=
  match JsMap.get roomCode (games gm) with
  | None => (gm, false)
  | Some game =>
      if negb (Game.gameStarted game) then (gm, false)
      else
        match JsMap.get playerId (Game.players game) with
        | None => (gm, false)
        | Some player =>
            (storeGame roomCode (recordMark now playerId number game player) gm,
             true)
        end
  end.

Definition getGame (roomCode : string) (gm : GameManager) : option Game.t :=
  JsMap.get roomCode (games gm).

Definition getOnlinePlayers (gm : GameManager) : list (string * string) :=
  concat (map (λ game,
            map (λ player, (GamePlayer.id player, GamePlayer.name player))
              (JsMap.values (Game.players game)))
          (JsMap.values (games gm))).

(** The periodic sweep: ended games without players are dropped. *)
Definition cleanupOldGames (gm : GameManager) : GameManager :=
  mkGameManager
    (List.filter (λ entry,
       negb (Game.gameEnded (snd entry)
             && (JsMap.size (Game.players (snd entry)) =? 0)))
       (games gm))
    (onlinePlayers gm).

Definition newGameManager : GameManager := mkGameManager [] ∅.

(** ** Data model of [room-manager.ts] *)

(** A transport handle: the room only stores the reference. *)
Definition WebSocket := nat.

Module Player.
Record t := mk {
  id : string;
  name : string;
  socket : WebSocket;
  isHost : bool;
  isReady : bool;
  score : Z;
  board : option (list Z)
}.
End Player.

Module RoomSettings.
Record t := mk {
  autoCallNumbers : bool;
  callInterval : Z;
  winPatterns : list string
}.
End RoomSettings.

Module Room.
Record t := mk {
  id : string;
  code : string;
  name : string;
  hostId : string;
  hostName : string;
  gameType : string;
  stake : Z;
  maxPlayers : Z;
  players : list (string * Player.t);
  gameStarted : bool;
  createdAt : Z;
  settings : RoomSettings.t
}.
End Room.

Record RoomManager := mkRoomManager {
  rooms : list (string * Room.t);
  roomCodes : gset string
}.

Definition newRoomManager : RoomManager := mkRoomManager [] ∅.

(** The request body of [createRoom]. *)
Module CreateRoomData.
Record t := mk {
  hostName : string;
  roomName : string;
  maxPlayers : Z;
  gameType : string;
  stake : Z
}.
End CreateRoomData.

Module CreateRoomResult.
Record t := mk {
  success : bool;
  roomCode : string;
  roomId : string;
  playerId : string;
  message : string
}.
End CreateRoomResult.

Module JoinRoomData.
Record t := mk {
  roomCode : string;
  playerName : string
}.
End JoinRoomData.

Inductive JoinRoomResult :=
| JoinFailure (message : string)
| JoinSuccess (playerId roomName hostName : string) (maxPlayers : Z)
    (gameType : string) (stake currentPlayers : Z).

(** ** Operations of [RoomManager] *)

Definition words : list string :=
  ["ለምን"; "ቢንጎ"; "አሰፋ"; "ደስታ"; "እድል"; "ሽልማት";
   "ደስተኛ"; "አሸናፊ"; "ቻንስ"; "ጨዋታ"; "ደስ"; "ሆኖ"].

(** [words[Math.floor(Math.random() * words.length)]], the index being
    given by the caller. *)
Definition word (i : nat) : string := nth (i mod length words)%nat words "".

(** The [do ... while (this.roomCodes.has(code))] loop; [draws] lists the
    successive pairs of indices drawn.  [None]: every listed pair gave a
    code in use and the loop goes on. *)
Fixpoint generateRoomCode (draws : list (nat * nat)) (rm : RoomManager)
    : option (RoomManager * string) :=
  match draws with
  | [] => None
  | (i, j) :: rest =>
      let code := word i +:+ "-" +:+ word j in
      if bool_decide (code ∈ roomCodes rm) then generateRoomCode rest rm
      else Some (mkRoomManager (rooms rm) ({[code]} ∪ roomCodes rm), code)
  end.

Definition seventyFiveBallPatterns : list string :=
  ["row"; "column"; "diagonal"; "four-corners"; "full-house"].

(** [patterns[gameType] || patterns['75ball']] for the four game types and
    for a type the table does not know.  A type that names a property the
    table object inherits ('constructor', 'toString', ...) makes the code
    return that property, which is no list of names; the fallback stands
    for it here and nothing below is stated at such a type. *)
Definition getWinPatterns (gameType : string) : list string :=
  if String.eqb gameType "75ball" then seventyFiveBallPatterns
  else if String.eqb gameType "90ball" then ["one-line"; "two-lines"; "full-house"]
  else if String.eqb gameType "30ball" then ["full-house"]
  else if String.eqb gameType "pattern" then
    ["x-pattern"; "frame"; "postage-stamp"; "small-diamond"]
  else seventyFiveBallPatterns.

(** [roomId] and [playerId] are the two values of [v4.generate()], [now]
    that of [Date.now()]. *)
Definition createRoom (roomId playerId : string) (now : Z)
    (draws : list (nat * nat)) (data : CreateRoomData.t) (rm : RoomManager)
    : option (RoomManager * CreateRoomResult.t) :=
  '(rm1, roomCode) ← generateRoomCode draws rm;
  let room :=
    Room.mk roomId roomCode (CreateRoomData.roomName data) roomId
      (CreateRoomData.hostName data) (CreateRoomData.gameType data)
      (CreateRoomData.stake data) (CreateRoomData.maxPlayers data) [] false now
      (RoomSettings.mk true 7000 (getWinPatterns (CreateRoomData.gameType data))) in
  Some (mkRoomManager (JsMap.set roomCode room (rooms rm1)) (roomCodes rm1),
        CreateRoomResult.mk true roomCode roomId playerId
          "Room created successfully").

Definition joinRoom (playerId : string) (data : JoinRoomData.t)
    (rm : RoomManager) : JoinRoomResult :=
  match JsMap.get (JoinRoomData.roomCode data) (rooms rm) with
  | None => JoinFailure "Room not found"
  | Some room =>
      if JsMap.size (Room.players room) >=? Room.maxPlayers room then
        JoinFailure "Room is full"
      else if Room.gameStarted room then JoinFailure "Game has already started"
      else
        JoinSuccess playerId (Room.name room) (Room.hostName room)
          (Room.maxPlayers room) (Room.gameType room) (Room.stake room)
          (JsMap.size (Room.players room) + 1)
  end.

Definition withHost (hostId hostName : string) (players : list (string * Player.t))
    (room : Room.t) : Room.t :=
  Room.mk (Room.id room) (Room.code room) (Room.name room) hostId hostName
    (Room.gameType room) (Room.stake room) (Room.maxPlayers room) players
    (Room.gameStarted room) (Room.createdAt room) (Room.settings room).

Definition storeRoom (roomCode : string) (room : Room.t) (rm : RoomManager)
    : RoomManager :=
  mkRoomManager (JsMap.set roomCode room (rooms rm)) (roomCodes rm).

Definition addPlayerToRoom (roomCode playerId : string) (socket : WebSocket)
    (rm : RoomManager) : RoomManager :=
  match JsMap.get roomCode (rooms rm) with
  | None => rm
  | Some room =>
      (* [!room.hostId]: only the empty string is falsy *)
      let hostId :=
        if (JsMap.size (Room.players room) =? 0) && String.eqb (Room.hostId room) ""
        then playerId else Room.hostId room in
      let player :=
        Player.mk playerId
          ("Player " +:+ pretty (JsMap.size (Room.players room) + 1))
          socket (String.eqb playerId hostId) false 0 None in
      storeRoom roomCode
        (withHost hostId (Room.hostName room)
           (JsMap.set playerId player (Room.players room)) room) rm
  end.

Definition makeHost (player : Player.t) : Player.t :=
  Player.mk (Player.id player) (Player.name player) (Player.socket player) true
    (Player.isReady player) (Player.score player) (Player.board player).

Definition removePlayerFromRoom (roomCode playerId : string) (rm : RoomManager)
    : RoomManager :=
  match JsMap.get roomCode (rooms rm) with
  | None => rm
  | Some room =>
      let players1 := JsMap.delete playerId (Room.players room) in
      let room' :=
        match players1 with
        | (key, newHost) :: others =>
            if String.eqb playerId (Room.hostId room) then
              withHost (Player.id newHost) (Player.name newHost)
                ((key, makeHost newHost) :: others) room
            else withHost (Room.hostId room) (Room.hostName room) players1 room
        | [] => withHost (Room.hostId room) (Room.hostName room) players1 room
        end in
      if JsMap.size (Room.players room') =? 0 then
        mkRoomManager (JsMap.delete roomCode (rooms rm))
          (roomCodes rm ∖ {[roomCode]})
      else storeRoom roomCode room' rm
  end.

Definition getRoom (roomCode : string) (rm : RoomManager) : option Room.t :=
  JsMap.get roomCode (rooms rm).

(** The rooms whose fields [getAvailableRooms] copies into its answer. *)
Definition getAvailableRooms (rm : RoomManager) : list Room.t :=
  List.filter (λ room,
    negb (Room.gameStarted room)
    && (JsMap.size (Room.players room) <? Room.maxPlayers room))
    (JsMap.values (rooms rm)).

(** ** The server: [server.ts] *)

Record Server := mkServer {
  roomManager : RoomManager;
  gameManager : GameManager
}.

(** [const gameManager = new GameManager(); const roomManager = new
    RoomManager(gameManager);] *)
Definition newServer : Server := mkServer newRoomManager newGameManager.

(** What reaches the server: the routes of [handleApi], the message types
    of [handleWsConnection], the end of a connection and the timer set by
    the [GameManager] constructor.  Values the handlers draw themselves
    (identifiers, clock, random indices) and the bound on loop iterations
    travel with the request. *)
Inductive Request :=
| GetPlayers
| PostCreateRoom (roomId playerId : string) (now : Z) (draws : list (nat * nat))
    (body : CreateRoomData.t)
| PostCreateRoomNull (draws : list (nat * nat))
| PostJoinRoom (playerId : string) (body : JoinRoomData.t)
| PostStartGame (fuel : nat) (roomCode : string)
| GetRooms
| GetRoom (roomCode : string)
| OtherHttp
| WsJoin (roomCode playerId : string) (socket : WebSocket)
| WsLeave (roomCode playerId : string)
| WsChat (roomCode : string)
| WsStartGame (roomCode playerId : string)
| WsCallNumber (roomCode : string) (number : Z)
| WsMarkNumber (roomCode playerId : string) (number : Z)
| WsClaimWin (roomCode playerId pattern : string)
| WsPing
| WsClose (roomCode : string) (playerId : option string)
| TimerTick.

Inductive Response :=
| PlayersBody (players : list (string * string))
| CreateRoomBody (result : CreateRoomResult.t)
| JoinRoomBody (result : JoinRoomResult)
| StartGameBody (result : StartResult.t)
| RoomsBody (available : list Room.t)
| RoomBody (room : option Room.t)
| ServerError
| NoBody.

Section Handlers.
Variable Math_sin : Z → Q.

(** One request, start to end.  The message types that only broadcast
    ([chat], [startGame], [callNumber], [markNumber], [claimWin]) read the
    room and write to sockets: the state is unchanged.  [None]: the handler
    is still inside a loop when the draws or the fuel are spent.

    [PostCreateRoomNull] is the create route with the JSON body [null]:
    [createRoom] has drawn its identifier and reserved a code when reading
    [data.roomName] throws; [handleApi] catches and answers 500, and the
    code stays reserved.  The other routes throw on such a body before
    they change anything, as [OtherHttp] has it.

    A room code is taken as the request carries it: every string is
    allowed, which covers what the handlers cut out of the path. *)
Definition handle (req : Request) (s : Server) : option (Server * Response) :=
  match req with
  | GetPlayers => Some (s, PlayersBody (getOnlinePlayers (gameManager s)))
  | PostCreateRoom roomId playerId now draws body =>
      '(rm, result) ← createRoom roomId playerId now draws body (roomManager s);
      Some (mkServer rm (gameManager s), CreateRoomBody result)
  | PostCreateRoomNull draws =>
      '(rm, _) ← generateRoomCode draws (roomManager s);
      Some (mkServer rm (gameManager s), ServerError)
  | PostJoinRoom playerId body =>
      Some (s, JoinRoomBody (joinRoom playerId body (roomManager s)))
  | PostStartGame fuel roomCode =>
      '(gm, result) ← startGame Math_sin fuel roomCode (gameManager s);
      Some (mkServer (roomManager s) gm, StartGameBody result)
  | GetRooms => Some (s, RoomsBody (getAvailableRooms (roomManager s)))
  | GetRoom roomCode => Some (s, RoomBody (getRoom roomCode (roomManager s)))
  | OtherHttp => Some (s, NoBody)
  | WsJoin roomCode playerId socket =>
      Some (mkServer (addPlayerToRoom roomCode playerId socket (roomManager s))
              (gameManager s), NoBody)
  | WsLeave roomCode playerId =>
      Some (mkServer (removePlayerFromRoom roomCode playerId (roomManager s))
              (gameManager s), NoBody)
  | WsChat _ | WsStartGame _ _ | WsCallNumber _ _ | WsMarkNumber _ _ _
  | WsClaimWin _ _ _ | WsPing => Some (s, NoBody)
  | WsClose roomCode (Some playerId) =>
      Some (mkServer (removePlayerFromRoom roomCode playerId (roomManager s))
              (gameManager s), NoBody)
  | WsClose _ None => Some (s, NoBody)
  | TimerTick =>
      Some (mkServer (roomManager s) (cleanupOldGames (gameManager s)), NoBody)
  end.

(** The states the server can be in. *)
Inductive reachable : Server → Prop :=
| reachable_new : reachable newServer
| reachable_step s req s' resp :
    reachable s → handle req s = Some (s', resp) → reachable s'.

End Handlers.

(** [Math.sin(0)] is [0]: a sine that is right at seed [0], the only seed
    the worked examples use. *)
Definition sineAtZero : Z → Q := λ _, 0%Q.

(** ** Worked scenarios *)

(** A run of [markNumber] calls, each with its clock value, room, player
    and number. *)
Definition markNumbers (marks : list (Z * string * string * Z))
    (gm : GameManager) : GameManager :=
  fold_left (λ gm '(now, roomCode, playerId, number),
               (markNumber now roomCode playerId number gm).1) marks gm.

(** A room's game with two registered players, not yet started. *)
Definition lobby (gameType : string) : GameManager :=
  let settings := GameSettings.mk 10 true 7000 (getWinPatterns gameType) in
  let gm0 := (createGame "game-1" 0 "room" gameType settings newGameManager).1 in
  let gm1 := (addPlayerToGame "room" "p1" "Abebe" gm0).1 in
  (addPlayerToGame "room" "p2" "Kebede" gm1).1.

(** The 90-ball lobby after [startGame]: at seed [0] every column asks for
    one number and the call returns. *)
Definition started90 : GameManager :=
  match startGame sineAtZero 1 "room" (lobby "90ball") with
  | Some (gm, _) => gm
  | None => lobby "90ball"
  end.

(** The nine numbers of the board dealt at seed [0], and [0], the value
    the grid reads in the sixteen cells the board does not fill. *)
Definition fullHouseMarks (playerId : string) : list (Z * string * string * Z) :=
  map (λ number, (1000 + number, "room", playerId, number))
    [0; 1; 11; 21; 31; 41; 51; 61; 71; 81].

(** [p1] has marked a full house: the game has ended. *)
Definition ended90 : GameManager := markNumbers (fullHouseMarks "p1") started90.

(** The started 90-ball game after [p2] has left: one player remains. *)
Definition leftAlone90 : GameManager := removePlayerFromGame "room" "p2" started90.

(** [p1] one mark short of the full house. *)
Definition almostFull90 : GameManager :=
  markNumbers (take 9 (fullHouseMarks "p1")) started90.

(** A started game of type 'pattern' whose player holds a 25-cell board. *)
Definition board25 : list Z :=
  [1; 2; 3; 4; 5; 16; 17; 18; 19; 20; 31; 32; 33; 34; 35;
   46; 47; 48; 49; 50; 61; 62; 63; 64; 65].

Definition startedPattern : GameManager :=
  mkGameManager
    [("room",
      Game.mk "game-1" "room" "pattern"
        [("p1", GamePlayer.mk "p1" "Abebe" board25 ∅ false false None 0);
         ("p2", GamePlayer.mk "p2" "Kebede" board25 ∅ false false None 0)]
        [] None true false None None 0
        (GameSettings.mk 10 true 7000 (getWinPatterns "pattern")))]
    {["p1"; "p2"]}.

Definition board25Marks (playerId : string) : list (Z * string * string * Z) :=
  map (λ number, (1000 + number, "room", playerId, number)) (0 :: board25).

(** The state a player of the room "room" is in. *)
Definition playerOf (playerId : string) (gm : GameManager) : option GamePlayer.t :=
  game ← getGame "room" gm; JsMap.get playerId (Game.players game).

(** Successive [callNumber] calls on one room, each with its own draws. *)
Fixpoint callNumbers (oracles : list (list Z)) (roomCode : string)
    (gm : GameManager) : option (GameManager * list (option Z)) :=
  match oracles with
  | [] => Some (gm, [])
  | draws :: rest =>
      '(gm1, number) ← callNumber draws roomCode gm;
      '(gm2, numbers) ← callNumbers rest roomCode gm1;
      Some (gm2, number :: numbers)
  end.

(** The started 90-ball game after a first call has drawn [5]. *)
Definition calledFive90 : GameManager :=
  match callNumber [4] "room" started90 with
  | Some (gm, _) => gm
  | None => started90
  end.

(** The started 90-ball game once the ninety numbers have been called, in
    increasing order. *)
Definition exhausted90 : GameManager :=
  match callNumbers (map (λ r, [r]) (seqZ 0 90)) "room" started90 with
  | Some (gm, _) => gm
  | None => started90
  end.

(** The players of a room whose host flag is set. *)
Definition hosts (room : Room.t) : list Player.t :=
  List.filter Player.isHost (JsMap.values (Room.players room)).

(** A request for a room of one player at a negative stake. *)
Definition invalidRoomData : CreateRoomData.t :=
  CreateRoomData.mk "Abebe" "Friday bingo" 1 "75ball" (-5).

Definition validRoomData : CreateRoomData.t :=
  CreateRoomData.mk "Abebe" "Friday bingo" 4 "75ball" 100.

(** The server after one room has been created over the API. *)
Definition createRequest : Request :=
  PostCreateRoom "3f0c-room" "9a1e-player" 1700000000000 [(0%nat, 1%nat)]
    validRoomData.

Definition serverWithRoom : Server :=
  match handle sineAtZero createRequest newServer with
  | Some (s, _) => s
  | None => newServer
  end.

(** ** Runs of the game manager *)

Section GameManagerRuns.
Variable Math_sin : Z → Q.

(** The states of a [GameManager] that its methods lead to from
    [new GameManager()], the periodic sweep included.  A call that does
    not return leads nowhere. *)
Inductive gmReachable : GameManager → Prop :=
| gm_new : gmReachable newGameManager
| gm_createGame gm gameId seed roomCode gameType settings :
    gmReachable gm →
    gmReachable (createGame gameId seed roomCode gameType settings gm).1
| gm_addPlayerToGame gm roomCode playerId playerName :
    gmReachable gm →
    gmReachable (addPlayerToGame roomCode playerId playerName gm).1
| gm_removePlayerFromGame gm roomCode playerId :
    gmReachable gm → gmReachable (removePlayerFromGame roomCode playerId gm)
| gm_startGame gm fuel roomCode gm' result :
    gmReachable gm →
    startGame Math_sin fuel roomCode gm = Some (gm', result) →
    gmReachable gm'
| gm_callNumber gm draws roomCode gm' number :
    gmReachable gm →
    callNumber draws roomCode gm = Some (gm', number) →
    gmReachable gm'
| gm_markNumber gm now roomCode playerId number :
    gmReachable gm →
    gmReachable (markNumber now roomCode playerId number gm).1
| gm_cleanupOldGames gm :
    gmReachable gm → gmReachable (cleanupOldGames gm).

End GameManagerRuns.

(** Every ended game still has a player. *)
Definition endedHavePlayers (gm : GameManager) : Prop :=
  Forall (λ entry : string * Game.t,
            Game.gameEnded entry.2 = true → Game.players entry.2 ≠ [])
    (games gm).

(** ** Room scenarios *)

(** The 144 codes [generateRoomCode] can build. *)
Definition allRoomCodes : list string :=
  flat_map (λ i, map (λ j, word i +:+ "-" +:+ word j) (seq 0 12)) (seq 0 12).

(** A room manager in which every one of them is live. *)
Definition crowdedRoomManager : RoomManager :=
  mkRoomManager [] (list_to_set allRoomCodes).

(** The room manager after a room for one player has been created. *)
Definition roomForOne : RoomManager :=
  match createRoom "3f0c-room" "9a1e-player" 1700000000000 [(0%nat, 1%nat)]
          invalidRoomData newRoomManager with
  | Some (rm, _) => rm
  | None => newRoomManager
  end.

(** The same room once a first player has attached. *)
Definition roomForOneTaken : RoomManager :=
  addPlayerToRoom "ለምን-ቢንጎ" "9a1e-player" 7%nat roomForOne.

(** A room whose first player attached under the room's own id, and so
    holds the host flag, followed by a second player. *)
Definition roomWithHost : RoomManager :=
  addPlayerToRoom "ለምን-ቢንጎ" "b2d4-player" 8%nat
    (addPlayerToRoom "ለምን-ቢንጎ" "3f0c-room" 7%nat
       (roomManager serverWithRoom)).

(** Every room is stored under a code in use, which is its own, and none
    is marked started. *)
Definition roomsInStep (rm : RoomManager) : Prop :=
  (∀ code, is_Some (getRoom code rm) → code ∈ roomCodes rm)
  ∧ Forall (λ entry : string * Room.t,
              Room.code entry.2 = entry.1 ∧ Room.gameStarted entry.2 = false)
      (rooms rm).

(** Every player of the room is stored under its own id, no id twice,
    and a player whose host flag is set is the one [hostId] names. *)
Definition hostsConsistent (room : Room.t) : Prop :=
  NoDup (JsMap.keys (Room.players room))
  ∧ Forall (λ entry : string * Player.t,
              Player.id entry.2 = entry.1
              ∧ (Player.isHost entry.2 = true → entry.1 = Room.hostId room))
      (Room.players room).

(** The server after the two players of [roomWithHost] have joined. *)
Definition serverWithHost : Server :=
  mkServer roomWithHost (gameManager serverWithRoom).

(** The server after a create request with the body [null] has reserved
    a second code. *)
Definition serverWithOrphanCode : Server :=
  match handle sineAtZero (PostCreateRoomNull [(4%nat, 5%nat)]) serverWithRoom with
  | Some (s, _) => s
  | None => serverWithRoom
  end.

(** * Properties *)

(** ** Maps *)

Section JsMapFacts.
Context {V : Type}.
Implicit Types (m : list (string * V)) (k : string) (v : V).

Lemma get_set_eq m k v : JsMap.get k (JsMap.set k v m) = Some v.
Proof.
  induction m as [|[k' v'] m IH]; simpl.
  - by rewrite String.eqb_refl.
  - destruct (String.eqb k' k) eqn:E; simpl.
    + by rewrite String.eqb_refl.
    + by rewrite E.
Qed.

Lemma get_set_ne m k k' v : k ≠ k' → JsMap.get k' (JsMap.set k v m) = JsMap.get k' m.
Proof.
  intros Hne. induction m as [|[k0 v0] m IH]; simpl.
  - destruct (String.eqb k k') eqn:E; [|done].
    apply String.eqb_eq in E. contradiction.
  - destruct (String.eqb k0 k) eqn:E; simpl.
    + apply String.eqb_eq in E. subst k0.
      destruct (String.eqb k k') eqn:E'; [|done].
      apply String.eqb_eq in E'. contradiction.
    + by rewrite IH.
Qed.

End JsMapFacts.

(** ** Board generation never finishes a column *)

Lemma setAdd_again (x : Z) : setAdd x [x] = [x].
Proof. unfold setAdd. rewrite bool_decide_eq_true_2; [done|]. set_solver. Qed.

Lemma setAdd_first (x : Z) : setAdd x [] = [x].
Proof. reflexivity. Qed.

(** Every draw of one loop is the same value, so the set stays at one
    element and a loop waiting for two or more never ends. *)
Lemma drawDistinct_one_stuck fuel rnd (min max count : Z) :
  2 ≤ count → drawDistinct fuel rnd min max count [rnd min max] = None.
Proof.
  intros Hc.
  assert (Hlt : (Z.of_nat (length [rnd min max]) <? count) = true)
    by (apply Z.ltb_lt; simpl; lia).
  induction fuel as [|fuel IH]; cbn [drawDistinct]; rewrite Hlt; [done|].
  by rewrite setAdd_again.
Qed.

Lemma drawDistinct_stuck fuel rnd (min max count : Z) :
  2 ≤ count → drawDistinct fuel rnd min max count [] = None.
Proof.
  intros Hc.
  assert (Hlt : (Z.of_nat (length (@nil Z)) <? count) = true)
    by (apply Z.ltb_lt; simpl; lia).
  destruct fuel as [|fuel]; cbn [drawDistinct]; rewrite Hlt; [done|].
  rewrite setAdd_first. by apply drawDistinct_one_stuck.
Qed.

(** A loop waiting for one value takes it at the first draw. *)
Lemma drawDistinct_single fuel rnd (min max : Z) :
  drawDistinct (S fuel) rnd min max 1 [] = Some [rnd min max].
Proof. cbn [drawDistinct]. rewrite setAdd_first. by destruct fuel. Qed.

Lemma forColumns75_stuck fuel rnd (min max : Z) rest board :
  forColumns75 fuel rnd ((min, max) :: rest) board = None.
Proof. cbn [forColumns75]. by rewrite drawDistinct_stuck by lia. Qed.

Lemma generate75BallBoard_stuck fuel rnd : generate75BallBoard fuel rnd = None.
Proof. apply forColumns75_stuck. Qed.

Lemma generate30BallBoard_stuck fuel rnd : generate30BallBoard fuel rnd = None.
Proof. unfold generate30BallBoard. by rewrite drawDistinct_stuck by lia. Qed.

Lemma forColumns90_stuck fuel rnd (min max : Z) rest board :
  2 ≤ rnd 1 3 → forColumns90 fuel rnd ((min, max) :: rest) board = None.
Proof. intros H. cbn [forColumns90]. by rewrite drawDistinct_stuck by lia. Qed.

Lemma generate90BallBoard_stuck fuel rnd :
  2 ≤ rnd 1 3 → generate90BallBoard fuel rnd = None.
Proof. apply forColumns90_stuck. Qed.

Lemma forColumns90_single fuel rnd columns board :
  rnd 1 3 = 1 →
  forColumns90 (S fuel) rnd columns board =
    Some (board ++ map (λ c, rnd c.1 c.2) columns).
Proof.
  intros H. revert board.
  induction columns as [|[min max] rest IH]; intros board.
  - cbn. by rewrite app_nil_r.
  - cbn [forColumns90]. rewrite H, drawDistinct_single. cbn [mbind option_bind].
    rewrite IH. cbn [map fst snd]. by rewrite <- app_assoc.
Qed.

Lemma generate90BallBoard_single fuel rnd :
  rnd 1 3 = 1 →
  generate90BallBoard (S fuel) rnd = Some (map (λ c, rnd c.1 c.2) columns90).
Proof. intros H. unfold generate90BallBoard. by rewrite forColumns90_single. Qed.

Section SeededFacts.
Variable Math_sin : Z → Q.

Lemma seededRandom_unit seed :
  (0 <= seededRandom Math_sin seed)%Q ∧ (seededRandom Math_sin seed < 1)%Q.
Proof.
  unfold seededRandom. cbv zeta.
  set (x := (Math_sin seed * 10000)%Q).
  pose proof (Qfloor_le x) as Hle.
  pose proof (Qlt_floor x) as Hlt.
  rewrite inject_Z_plus in Hlt. change (inject_Z 1) with 1%Q in Hlt.
  split; lra.
Qed.

(** [random(min, max)] lies in [[min, max]]. *)
Lemma random_range seed min max :
  min ≤ max → min ≤ random Math_sin seed min max ≤ max.
Proof.
  intros Hmm. unfold random.
  destruct (seededRandom_unit seed) as [H0 H1].
  set (u := seededRandom Math_sin seed) in *.
  set (k := max - min + 1).
  assert (Hk : (0 < inject_Z k)%Q).
  { change 0%Q with (inject_Z 0). rewrite <- Zlt_Qlt. unfold k. lia. }
  assert (Hlo : 0 ≤ Qfloor (u * inject_Z k)).
  { change 0 with (Qfloor (inject_Z 0)) at 1. apply Qfloor_resp_le.
    change (inject_Z 0) with 0%Q. apply Qmult_le_0_compat; lra. }
  assert (Hhi : Qfloor (u * inject_Z k) < k).
  { rewrite Zlt_Qlt.
    eapply Qle_lt_trans; [apply Qfloor_le|].
    generalize dependent (inject_Z k). intros K HK _. nra. }
  unfold k in *. lia.
Qed.

Lemma generateBoard_stuck fuel gameType seed :
  gameType ≠ "90ball" → generateBoard Math_sin fuel gameType seed = None.
Proof.
  intros Hne. unfold generateBoard, generatePatternBoard.
  destruct (String.eqb gameType "75ball"); [apply generate75BallBoard_stuck|].
  destruct (String.eqb gameType "90ball") eqn:E.
  { apply String.eqb_eq in E. contradiction. }
  destruct (String.eqb gameType "30ball"); [apply generate30BallBoard_stuck|].
  destruct (String.eqb gameType "pattern"); apply generate75BallBoard_stuck.
Qed.

Lemma generateBoard_90ball fuel seed :
  generateBoard Math_sin fuel "90ball" seed
  = generate90BallBoard fuel (random Math_sin seed).
Proof. reflexivity. Qed.

(** Whatever [generateBoard] returns is a nine-cell board of a 90-ball
    game whose every column asked for one number. *)
Lemma generateBoard_returns fuel gameType seed board :
  generateBoard Math_sin fuel gameType seed = Some board →
  gameType = "90ball" ∧ random Math_sin seed 1 3 = 1 ∧ length board = 9%nat.
Proof.
  intros H.
  destruct (decide (gameType = "90ball")) as [->|Hne].
  2: { rewrite generateBoard_stuck in H by done. discriminate. }
  rewrite generateBoard_90ball in H.
  pose proof (random_range seed 1 3 ltac:(lia)) as Hr.
  destruct (decide (random Math_sin seed 1 3 = 1)) as [H1|H1].
  2: { rewrite generate90BallBoard_stuck in H by lia. discriminate. }
  split; [done|]. split; [done|].
  destruct fuel as [|fuel].
  - unfold generate90BallBoard, columns90 in H. cbn [forColumns90] in H.
    rewrite H1 in H. discriminate.
  - rewrite generate90BallBoard_single in H by done.
    injection H as <-. reflexivity.
Qed.

Lemma assignBoards_boards fuel gameType seed players players' :
  assignBoards Math_sin fuel gameType seed players = Some players' →
  JsMap.size players' = JsMap.size players
  ∧ ∀ player, player ∈ JsMap.values players' →
      generateBoard Math_sin fuel gameType seed = Some (GamePlayer.board player)
      ∧ GamePlayer.markedNumbers player = ∅.
Proof.
  revert players'. unfold JsMap.size, JsMap.values.
  induction players as [|[key p] rest IH]; intros players' H.
  - injection H as <-. split; [done|]. intros player Hin. inversion Hin.
  - cbn [assignBoards] in H.
    destruct (generateBoard Math_sin fuel gameType seed) as [b|] eqn:Hb;
      [|discriminate].
    cbn [mbind option_bind] in H.
    destruct (assignBoards Math_sin fuel gameType seed rest) as [rest'|] eqn:Hr;
      [|discriminate].
    cbn in H. injection H as <-.
    destruct (IH rest' eq_refl) as [Hsize Hall].
    split; [cbn [length]; lia|].
    intros player Hin. cbn in Hin. apply elem_of_cons in Hin as [->|Hin].
    + done.
    + by apply Hall.
Qed.

Lemma startGame_missing fuel roomCode gm :
  getGame roomCode gm = None →
  startGame Math_sin fuel roomCode gm
  = Some (gm, StartResult.failure "Game not found").
Proof. unfold getGame, startGame. by intros ->. Qed.

Lemma startGame_started fuel roomCode gm game :
  getGame roomCode gm = Some game → Game.gameStarted game = true →
  startGame Math_sin fuel roomCode gm
  = Some (gm, StartResult.failure "Game already started").
Proof. unfold getGame, startGame. by intros -> ->. Qed.

Lemma startGame_few_players fuel roomCode gm game :
  getGame roomCode gm = Some game → Game.gameStarted game = false →
  JsMap.size (Game.players game) < 2 →
  startGame Math_sin fuel roomCode gm
  = Some (gm, StartResult.failure "Need at least 2 players to start").
Proof.
  unfold getGame, startGame. intros -> -> Hlt.
  by rewrite (proj2 (Z.ltb_lt _ _) Hlt).
Qed.

(** A start that returns with two players or more: the stored game. *)
Lemma startGame_success fuel roomCode gm game gm' result :
  getGame roomCode gm = Some game → Game.gameStarted game = false →
  2 ≤ JsMap.size (Game.players game) →
  startGame Math_sin fuel roomCode gm = Some (gm', result) →
  ∃ players' board,
    assignBoards Math_sin fuel (Game.type game) (Game.boardSeed game)
      (Game.players game) = Some players'
    ∧ generateBoard Math_sin fuel (Game.type game) (Game.boardSeed game)
      = Some board
    ∧ result = StartResult.mk true (Some board) None
    ∧ getGame roomCode gm'
      = Some (Game.mk (Game.id game) (Game.roomCode game) (Game.type game)
                players' (Game.calledNumbers game) (Game.currentNumber game)
                true (Game.gameEnded game) (Game.winner game)
                (Game.winPattern game) (Game.boardSeed game)
                (Game.settings game)).
Proof.
  unfold getGame, startGame. intros -> -> Hge.
  rewrite (proj2 (Z.ltb_ge _ _) Hge).
  destruct (assignBoards _ _ _ _ _) as [players'|]; [|discriminate].
  destruct (generateBoard _ _ _ _) as [board|]; [|discriminate].
  cbn. intros [= <- <-]. exists players', board.
  repeat split. unfold storeGame. cbn. apply get_set_eq.
Qed.

End SeededFacts.

(** ** Starting a game *)

(** The loop of a board that needs two distinct draws or more never ends:
    with two registered players [startGame] does not return, except for a
    90-ball game whose seed asks for one number per column. *)
Lemma startGame_stuck Math_sin fuel roomCode gm game :
  getGame roomCode gm = Some game → Game.gameStarted game = false →
  2 ≤ JsMap.size (Game.players game) →
  Game.type game ≠ "90ball"
  ∨ random Math_sin (Game.boardSeed game) 1 3 ≠ 1 →
  startGame Math_sin fuel roomCode gm = None.
Proof.
  intros Hget Hns Hge Hty.
  destruct (startGame Math_sin fuel roomCode gm) as [[gm' result]|] eqn:E;
    [|done].
  destruct (startGame_success _ _ _ _ _ _ _ Hget Hns Hge E)
    as (players' & board & _ & Hb & _).
  apply generateBoard_returns in Hb as (Ht & Hr & _).
  destruct Hty; contradiction.
Qed.

(** What a start that returns has dealt: nine cells to every player of a
    90-ball game. *)
Lemma startGame_boards Math_sin fuel roomCode gm game gm' result :
  getGame roomCode gm = Some game → Game.gameStarted game = false →
  startGame Math_sin fuel roomCode gm = Some (gm', result) →
  StartResult.success result = true →
  ∃ game', getGame roomCode gm' = Some game'
    ∧ Game.type game' = "90ball"
    ∧ JsMap.size (Game.players game') = JsMap.size (Game.players game)
    ∧ ∀ player, player ∈ JsMap.values (Game.players game') →
        length (GamePlayer.board player) = 9%nat.
Proof.
  intros Hget Hns Hstart Hok.
  destruct (Z.ltb_spec (JsMap.size (Game.players game)) 2) as [Hlt|Hge].
  { rewrite (startGame_few_players _ _ _ _ _ Hget Hns Hlt) in Hstart.
    injection Hstart as <- <-. discriminate. }
  destruct (startGame_success _ _ _ _ _ _ _ Hget Hns Hge Hstart)
    as (players' & board & Ha & Hb & _ & Hg).
  eexists. split; [exact Hg|]. cbn.
  apply assignBoards_boards in Ha as [Hsize Hall].
  apply generateBoard_returns in Hb as Hb'. destruct Hb' as (Ht & _ & _).
  split; [done|]. split; [done|].
  intros player Hin. destruct (Hall player Hin) as [Hp _].
  by apply generateBoard_returns in Hp as (_ & _ & Hlen).
Qed.

Lemma assignBoards_returns Math_sin fuel gameType seed board players :
  generateBoard Math_sin fuel gameType seed = Some board →
  is_Some (assignBoards Math_sin fuel gameType seed players).
Proof.
  intros Hb. induction players as [|[key player] rest [rest' IH]]; [by eexists|].
  cbn [assignBoards]. rewrite Hb. cbn. rewrite IH. by eexists.
Qed.

(** The one case in which a start returns: a 90-ball game whose seed makes
    [random(1, 3)] equal to [1].  One iteration per loop is enough. *)
Lemma startGame_90ball_returns Math_sin fuel roomCode gm game :
  getGame roomCode gm = Some game → Game.gameStarted game = false →
  2 ≤ JsMap.size (Game.players game) →
  Game.type game = "90ball" →
  random Math_sin (Game.boardSeed game) 1 3 = 1 →
  ∃ gm' board,
    startGame Math_sin (S fuel) roomCode gm
    = Some (gm', StartResult.mk true (Some board) None)
    ∧ length board = 9%nat.
Proof.
  unfold getGame, startGame. intros -> -> Hge Hty Hr.
  rewrite (proj2 (Z.ltb_ge _ _) Hge), Hty.
  pose proof (generate90BallBoard_single fuel _ Hr) as Hb.
  rewrite <- generateBoard_90ball in Hb.
  destruct (assignBoards_returns _ _ _ _ _ (Game.players game) Hb)
    as [players' ->].
  rewrite Hb. cbn. eauto.
Qed.

(** C3.  [generateBoard] does not terminate for the game types '75ball',
    '30ball' and 'pattern', whatever the seed and whatever the sine: every
    call of [random(min, max)] within one [generateBoard] returns the same
    value, so the set of a rejection loop stays at one element and no
    bound on the iterations lets the call return. *)
Theorem generateBoard_never_returns (Math_sin : Z → Q) (fuel : nat) (seed : Z) :
  generateBoard Math_sin fuel "75ball" seed = None
  ∧ generateBoard Math_sin fuel "30ball" seed = None
  ∧ generateBoard Math_sin fuel "pattern" seed = None.
Proof. repeat split; by apply generateBoard_stuck. Qed.


Lemma started90_spec :
  startGame sineAtZero 1 "room" (lobby "90ball")
  = Some (started90, StartResult.mk true (Some [1; 11; 21; 31; 41; 51; 61; 71; 81]) None).
Proof. unfold started90. by vm_compute. Qed.

(** C4.  The success the claim promises with two players or more does
    not come: on a '75ball' game of two registered players that has not
    started, [startGame] gives none of its answers, it never returns,
    whatever the sine and the bound on the iterations. *)
Theorem startGame_two_players_never_succeeds (Math_sin : Z → Q) (fuel : nat) :
  (∃ game,
     getGame "room" (lobby "75ball") = Some game
     ∧ Game.gameStarted game = false
     ∧ JsMap.size (Game.players game) = 2)
  ∧ startGame Math_sin fuel "room" (lobby "75ball") = None.
Proof.
  split.
  - eexists. split; [reflexivity|]. split; reflexivity.
  - eapply startGame_stuck; [reflexivity|reflexivity|by vm_compute|].
    left. discriminate.
Qed.

(** ** Marking and calling *)

Lemma getGame_storeGame roomCode game gm :
  getGame roomCode (storeGame roomCode game gm) = Some game.
Proof. apply get_set_eq. Qed.

Lemma getGame_storeGame_ne roomCode roomCode' game gm :
  roomCode ≠ roomCode' →
  getGame roomCode' (storeGame roomCode game gm) = getGame roomCode' gm.
Proof. apply get_set_ne. Qed.

Lemma markNumber_known now roomCode playerId number gm game player :
  getGame roomCode gm = Some game → Game.gameStarted game = true →
  JsMap.get playerId (Game.players game) = Some player →
  markNumber now roomCode playerId number gm
  = (storeGame roomCode (recordMark now playerId number game player) gm, true).
Proof. unfold getGame, markNumber. by intros -> -> ->. Qed.

(** Whatever [markNumber] does, the game of a room is either untouched or
    replaced by [recordMark] of it. *)
Lemma markNumber_getGame now roomCode playerId number gm roomCode' game :
  getGame roomCode' gm = Some game →
  getGame roomCode' (markNumber now roomCode playerId number gm).1 = Some game
  ∨ ∃ player,
      roomCode' = roomCode ∧ Game.gameStarted game = true
      ∧ JsMap.get playerId (Game.players game) = Some player
      ∧ getGame roomCode' (markNumber now roomCode playerId number gm).1
        = Some (recordMark now playerId number game player).
Proof.
  intros Hget. unfold markNumber.
  destruct (decide (roomCode = roomCode')) as [->|Hne].
  - unfold getGame in Hget. rewrite Hget.
    destruct (Game.gameStarted game) eqn:Hs; cbn [negb]; [|by left].
    destruct (JsMap.get playerId (Game.players game)) as [player|] eqn:Hp;
      [|by left].
    right. exists player. cbn [fst]. by rewrite getGame_storeGame.
  - left.
    destruct (JsMap.get roomCode (games gm)) as [other|]; [|done].
    destruct (negb (Game.gameStarted other)); [done|].
    destruct (JsMap.get playerId (Game.players other)); [|done].
    cbn [fst]. by rewrite getGame_storeGame_ne.
Qed.

Lemma recordMark_marks now playerId number game player :
  ∃ player',
    JsMap.get playerId (Game.players (recordMark now playerId number game player))
    = Some player'
    ∧ GamePlayer.markedNumbers player'
      = {[number]} ∪ GamePlayer.markedNumbers player
    ∧ GamePlayer.board player' = GamePlayer.board player.
Proof.
  unfold recordMark. cbv zeta.
  destruct (truthy _); cbn [Game.players]; rewrite get_set_eq; eauto.
Qed.

Lemma recordMark_win now playerId number game player :
  let won :=
    checkForWin (GamePlayer.board player)
      ({[number]} ∪ GamePlayer.markedNumbers player)
      (GameSettings.winPatterns (Game.settings game)) in
  truthy won = true →
  Game.gameEnded (recordMark now playerId number game player) = true
  ∧ Game.winner (recordMark now playerId number game player) = Some playerId
  ∧ Game.winPattern (recordMark now playerId number game player) = won.
Proof. unfold recordMark. cbv zeta. by intros ->. Qed.

Lemma recordMark_no_win now playerId number game player :
  let won :=
    checkForWin (GamePlayer.board player)
      ({[number]} ∪ GamePlayer.markedNumbers player)
      (GameSettings.winPatterns (Game.settings game)) in
  truthy won = false →
  Game.gameEnded (recordMark now playerId number game player)
  = Game.gameEnded game
  ∧ Game.winner (recordMark now playerId number game player) = Game.winner game
  ∧ Game.winPattern (recordMark now playerId number game player)
    = Game.winPattern game.
Proof. unfold recordMark. cbv zeta. by intros ->. Qed.

Lemma recordMark_keeps now playerId number game player :
  Game.type (recordMark now playerId number game player) = Game.type game
  ∧ Game.settings (recordMark now playerId number game player)
    = Game.settings game
  ∧ Game.calledNumbers (recordMark now playerId number game player)
    = Game.calledNumbers game.
Proof. unfold recordMark. cbv zeta. by destruct (truthy _). Qed.

(** C9.  For a started game, a known player and any number whatsoever,
    [markNumber] returns true, adds the number to the player's marked set
    and runs the win check on the result; neither [calledNumbers] nor the
    board is consulted, so a win is recorded also when the number, and all
    the marks before it, were never called. *)
Theorem markNumber_unchecked (now : Z) (roomCode playerId : string) (number : Z)
    (gm : GameManager) (game : Game.t) (player : GamePlayer.t) :
  getGame roomCode gm = Some game →
  Game.gameStarted game = true →
  JsMap.get playerId (Game.players game) = Some player →
  let marked := {[number]} ∪ GamePlayer.markedNumbers player in
  let won :=
    checkForWin (GamePlayer.board player) marked
      (GameSettings.winPatterns (Game.settings game)) in
  ∃ gm' game' player',
    markNumber now roomCode playerId number gm = (gm', true)
    ∧ getGame roomCode gm' = Some game'
    ∧ JsMap.get playerId (Game.players game') = Some player'
    ∧ GamePlayer.markedNumbers player' = marked
    ∧ Game.calledNumbers game' = Game.calledNumbers game
    ∧ (truthy won = true →
       Game.gameEnded game' = true ∧ Game.winner game' = Some playerId
       ∧ Game.winPattern game' = won)
    ∧ (truthy won = false →
       Game.gameEnded game' = Game.gameEnded game
       ∧ Game.winner game' = Game.winner game
       ∧ Game.winPattern game' = Game.winPattern game).
Proof.
  intros Hget Hs Hp marked won.
  destruct (recordMark_marks now playerId number game player)
    as (player' & Hp' & Hmarks & _).
  exists (storeGame roomCode (recordMark now playerId number game player) gm),
    (recordMark now playerId number game player), player'.
  split; [by apply markNumber_known|].
  split; [apply getGame_storeGame|].
  split; [done|]. split; [done|].
  split; [apply recordMark_keeps|].
  split; [apply recordMark_win | apply recordMark_no_win].
Qed.

Lemma markNumber_unchecked_witness :
  ∃ game gm' game',
    getGame "room" almostFull90 = Some game
    ∧ Game.calledNumbers game = []
    ∧ markNumber 1081 "room" "p1" 81 almostFull90 = (gm', true)
    ∧ getGame "room" gm' = Some game'
    ∧ Game.calledNumbers game' = []
    ∧ Game.gameEnded game' = true
    ∧ Game.winner game' = Some "p1"
    ∧ Game.winPattern game' = Some "full-house".
Proof.
  destruct (getGame "room" almostFull90) as [game|] eqn:Hget;
    [|vm_compute in Hget; discriminate].
  destruct (JsMap.get "p1" (Game.players game)) as [player|] eqn:Hp;
    [|vm_compute in Hget; injection Hget as <-; vm_compute in Hp; discriminate].
  assert (Hs : Game.gameStarted game = true)
    by (vm_compute in Hget; injection Hget as <-; reflexivity).
  assert (Hc : Game.calledNumbers game = [])
    by (vm_compute in Hget; injection Hget as <-; reflexivity).
  assert (Hw : checkForWin (GamePlayer.board player)
                 ({[81]} ∪ GamePlayer.markedNumbers player)
                 (GameSettings.winPatterns (Game.settings game))
               = Some "full-house").
  { vm_compute in Hget. injection Hget as <-.
    vm_compute in Hp. injection Hp as <-. by vm_compute. }
  destruct (markNumber_unchecked 1081 "room" "p1" 81 almostFull90 game player
              Hget Hs Hp)
    as (gm' & game' & player' & Hm & Hg' & _ & _ & Hc' & Hwin & _).
  rewrite Hw in Hwin. destruct (Hwin eq_refl) as (He & Hwr & Hwp).
  exists game, gm', game'.
  split; [reflexivity|]. split; [exact Hc|]. split; [exact Hm|].
  split; [exact Hg'|]. split; [by rewrite Hc'|].
  split; [exact He|]. split; [exact Hwr|exact Hwp].
Defined.

(** On an ended game [callNumber] returns [null] and draws nothing. *)
Lemma callNumber_ended draws roomCode gm game :
  getGame roomCode gm = Some game → Game.gameEnded game = true →
  callNumber draws roomCode gm = Some (gm, None).
Proof.
  unfold getGame, callNumber. intros -> ->. by rewrite orb_true_r.
Qed.

(** C1.  [markNumber] has no guard on [gameEnded].  In the 90-ball game
    that [p1] has won with a full house, the same marks by [p2] record a
    second win: [winner] changes from [p1] to [p2] and [p2] is credited;
    and one more mark by [p1] credits [p1] again and moves its win time. *)
Theorem markNumber_after_end :
  (Game.gameEnded <$> getGame "room" ended90 = Some true
   ∧ Game.winner <$> getGame "room" ended90 = Some (Some "p1")
   ∧ Game.winPattern <$> getGame "room" ended90 = Some (Some "full-house")
   ∧ GamePlayer.score <$> playerOf "p1" ended90 = Some 16
   ∧ GamePlayer.winTime <$> playerOf "p1" ended90 = Some (Some 1081)
   ∧ GamePlayer.hasWon <$> playerOf "p2" ended90 = Some false)
  ∧ (let later := markNumbers (fullHouseMarks "p2") ended90 in
     Game.winner <$> getGame "room" later = Some (Some "p2")
     ∧ GamePlayer.hasWon <$> playerOf "p2" later = Some true
     ∧ GamePlayer.score <$> playerOf "p2" later = Some 16)
  ∧ (let again := (markNumber 5000 "room" "p1" 7 ended90).1 in
     GamePlayer.score <$> playerOf "p1" again = Some 32
     ∧ GamePlayer.winTime <$> playerOf "p1" again = Some (Some 5000)).
Proof. vm_compute. repeat split. Qed.

(** ** Unrecognised pattern names *)

Lemma checkForWin_pattern board marked :
  checkForWin board marked (getWinPatterns "pattern") = None.
Proof. reflexivity. Qed.

(** A game configured with the 'pattern' names keeps its end state through
    any call of [markNumber], on this room or another. *)
Lemma markNumber_pattern now roomCode playerId number gm roomCode' game :
  getGame roomCode' gm = Some game →
  GameSettings.winPatterns (Game.settings game) = getWinPatterns "pattern" →
  ∃ game',
    getGame roomCode' (markNumber now roomCode playerId number gm).1 = Some game'
    ∧ Game.type game' = Game.type game
    ∧ Game.settings game' = Game.settings game
    ∧ Game.gameEnded game' = Game.gameEnded game
    ∧ Game.winner game' = Game.winner game
    ∧ Game.winPattern game' = Game.winPattern game.
Proof.
  intros Hget Hpat.
  destruct (markNumber_getGame now roomCode playerId number gm roomCode' game Hget)
    as [Hsame|(player & _ & _ & _ & Hrec)].
  - exists game. by rewrite Hsame.
  - eexists. split; [exact Hrec|].
    destruct (recordMark_keeps now playerId number game player) as (Ht & Hse & _).
    split; [done|]. split; [done|].
    apply recordMark_no_win. by rewrite Hpat, checkForWin_pattern.
Qed.

(** C10.  The six configured names 'one-line', 'two-lines', 'x-pattern',
    'frame', 'postage-stamp' and 'small-diamond' reach the default branch
    of [checkPattern], which returns false, while 'full-house' is
    recognised among the 90-ball names; so in a game of type 'pattern'
    configured with that type's names no sequence of [markNumber] calls
    changes [gameEnded], [winner] or [winPattern]. *)
Theorem pattern_game_never_ends (marks : list (Z * string * string * Z))
    (roomCode : string) (gm : GameManager) (game : Game.t) :
  getGame roomCode gm = Some game →
  Game.type game = "pattern" →
  GameSettings.winPatterns (Game.settings game) = getWinPatterns (Game.type game) →
  (∀ grid marked pattern,
     pattern ∈ ["one-line"; "two-lines"; "x-pattern"; "frame"; "postage-stamp";
                "small-diamond"] →
     checkPattern grid marked pattern = false)
  ∧ (∃ board marked,
       checkForWin board marked (getWinPatterns "90ball") = Some "full-house")
  ∧ ∃ game',
      getGame roomCode (markNumbers marks gm) = Some game'
      ∧ Game.gameEnded game' = Game.gameEnded game
      ∧ Game.winner game' = Game.winner game
      ∧ Game.winPattern game' = Game.winPattern game.
Proof.
  intros Hget Hty Hpat. rewrite Hty in Hpat. clear Hty.
  split.
  { intros grid marked pattern Hin.
    repeat (apply elem_of_cons in Hin as [->|Hin]; [reflexivity|]).
    inversion Hin. }
  split.
  { exists [], {[0]}. by vm_compute. }
  revert gm game Hget Hpat.
  induction marks as [|[[[now rc] pid] number] marks IH]; intros gm game Hget Hpat.
  - exists game. by rewrite <- Hget.
  - cbn [markNumbers fold_left].
    destruct (markNumber_pattern now rc pid number gm roomCode game Hget Hpat)
      as (game1 & Hget1 & _ & Hse & He & Hw & Hp).
    destruct (IH _ game1 Hget1) as (game' & Hget' & He' & Hw' & Hp').
    { by rewrite Hse. }
    exists game'. split; [exact Hget'|]. by rewrite He', Hw', Hp'.
Qed.

Lemma pattern_game_never_ends_witness :
  ∃ game',
    getGame "room" (markNumbers (board25Marks "p1") startedPattern) = Some game'
    ∧ Game.gameEnded game' = false
    ∧ Game.winner game' = None
    ∧ Game.winPattern game' = None.
Proof.
  destruct (getGame "room" startedPattern) as [game|] eqn:Hget;
    [|vm_compute in Hget; discriminate].
  assert (Hgame : Game.type game = "pattern"
                  ∧ GameSettings.winPatterns (Game.settings game)
                    = getWinPatterns (Game.type game)
                  ∧ Game.gameEnded game = false
                  ∧ Game.winner game = None
                  ∧ Game.winPattern game = None).
  { vm_compute in Hget. injection Hget as <-. repeat split. }
  destruct Hgame as (Hty & Hpat & He & Hw & Hp).
  destruct (pattern_game_never_ends (board25Marks "p1") "room" startedPattern
              game Hget Hty Hpat)
    as (_ & _ & game' & Hget' & He' & Hw' & Hp').
  exists game'. split; [exact Hget'|].
  rewrite He', Hw', Hp'. split; [exact He|]. split; [exact Hw|exact Hp].
Defined.

(** ** Calling numbers *)

Lemma resample_fresh draws calledNumbers number :
  resample draws calledNumbers = Some number → number ∉ calledNumbers.
Proof.
  induction draws as [|r rest IH]; cbn [resample]; [done|].
  case_bool_decide as Hin; [exact IH|].
  by intros [= <-].
Qed.

(** The loop ends at the first draw that is not yet called. *)
Lemma resample_finds draws calledNumbers r :
  r ∈ draws → r + 1 ∉ calledNumbers → is_Some (resample draws calledNumbers).
Proof.
  intros Hin Hfresh. induction draws as [|r' rest IH]; [inversion Hin|].
  cbn [resample]. case_bool_decide as Hc; [|eauto].
  apply elem_of_cons in Hin as [->|Hin]; [contradiction|by apply IH].
Qed.

Lemma maxNumberOf_cases gameType :
  maxNumberOf gameType = 75 ∨ maxNumberOf gameType = 90
  ∨ maxNumberOf gameType = 30.
Proof.
  unfold maxNumberOf.
  repeat (destruct (String.eqb gameType _); [tauto|]). tauto.
Qed.

(** A sequence that holds every number of [1..m] has [m] entries or more. *)
Lemma covered_length (calledNumbers : list Z) (m : Z) :
  0 ≤ m → (∀ k, 1 ≤ k ≤ m → k ∈ calledNumbers) →
  m ≤ Z.of_nat (length calledNumbers).
Proof.
  intros Hm Hcov.
  assert (Hsub : seqZ 1 m ⊆+ calledNumbers).
  { apply NoDup_submseteq; [apply NoDup_seqZ|].
    intros k Hk. apply elem_of_seqZ in Hk. apply Hcov. lia. }
  apply submseteq_length in Hsub. rewrite length_seqZ in Hsub. lia.
Qed.

Lemma callNumber_exhausted draws roomCode gm game :
  getGame roomCode gm = Some game →
  (∀ k, 1 ≤ k ≤ maxNumberOf (Game.type game) → k ∈ Game.calledNumbers game) →
  callNumber draws roomCode gm = Some (gm, None).
Proof.
  intros Hget Hcov. unfold callNumber. unfold getGame in Hget. rewrite Hget.
  destruct (negb (Game.gameStarted game) || Game.gameEnded game); [done|].
  unfold generateRandomNumber.
  assert (Hlen : maxNumberOf (Game.type game)
                 ≤ Z.of_nat (length (Game.calledNumbers game))).
  { apply covered_length; [|done].
    destruct (maxNumberOf_cases (Game.type game)) as [->|[->| ->]]; lia. }
  by rewrite (proj2 (Z.geb_le _ _) Hlen).
Qed.

(** What a call that draws does to the game. *)
Lemma callNumber_draws draws roomCode gm game gm' number :
  getGame roomCode gm = Some game →
  callNumber draws roomCode gm = Some (gm', Some number) →
  resample draws (Game.calledNumbers game) = Some number
  ∧ ∃ game',
      getGame roomCode gm' = Some game'
      ∧ Game.calledNumbers game' = Game.calledNumbers game ++ [number]
      ∧ Game.currentNumber game' = Some number.
Proof.
  unfold getGame, callNumber. intros ->.
  destruct (negb (Game.gameStarted game) || Game.gameEnded game); [done|].
  unfold generateRandomNumber.
  destruct (_ >=? _); [done|].
  destruct (resample draws (Game.calledNumbers game)) as [n|]; [|done].
  cbn. intros [= <- <-]. split; [done|].
  eexists. split; [apply get_set_eq|]. done.
Qed.

(** C6.  On a started game that has not ended, a number returned by
    [callNumber] is not in [calledNumbers] and is appended to it; and once
    [calledNumbers] holds every number of the variant's range, every
    later call, whatever it would draw, returns [null] and leaves the
    state as it is. *)
Theorem callNumber_fresh_until_exhausted (draws : list Z) (roomCode : string)
    (gm : GameManager) (game : Game.t) :
  getGame roomCode gm = Some game →
  Game.gameStarted game = true →
  Game.gameEnded game = false →
  (∀ gm' number,
     callNumber draws roomCode gm = Some (gm', Some number) →
     (number ∉ Game.calledNumbers game)
     ∧ (∃ game', getGame roomCode gm' = Some game'
          ∧ Game.calledNumbers game' = Game.calledNumbers game ++ [number]))
  ∧ ((∀ k, 1 ≤ k ≤ maxNumberOf (Game.type game) → k ∈ Game.calledNumbers game) →
     ∀ oracles,
       callNumbers oracles roomCode gm
       = Some (gm, replicate (length oracles) None)).
Proof.
  intros Hget _ _. split.
  - intros gm' number Hcall.
    destruct (callNumber_draws _ _ _ _ _ _ Hget Hcall)
      as (Hre & game' & Hget' & Happ & _).
    split; [by eapply resample_fresh|]. by exists game'.
  - intros Hcov oracles. induction oracles as [|d rest IH]; [done|].
    cbn [callNumbers]. rewrite (callNumber_exhausted d _ _ _ Hget Hcov).
    cbn. by rewrite IH.
Qed.

Lemma exhausted90_calledNumbers :
  Game.calledNumbers <$> getGame "room" exhausted90 = Some (seqZ 1 90).
Proof. by vm_compute. Qed.

(** With fewer numbers called than the range holds, a call returns as soon
    as one of its draws is new. *)
Lemma callNumber_progress draws roomCode gm game r :
  getGame roomCode gm = Some game →
  Game.gameStarted game = true → Game.gameEnded game = false →
  Z.of_nat (length (Game.calledNumbers game)) < maxNumberOf (Game.type game) →
  r ∈ draws → r + 1 ∉ Game.calledNumbers game →
  ∃ gm' number, callNumber draws roomCode gm = Some (gm', Some number).
Proof.
  unfold getGame, callNumber. intros -> -> -> Hlen Hin Hfresh.
  cbn [negb orb]. unfold generateRandomNumber.
  destruct (Z.geb_spec (Z.of_nat (length (Game.calledNumbers game)))
              (maxNumberOf (Game.type game))); [lia|].
  destruct (resample_finds draws _ r Hin Hfresh) as [number ->].
  cbn. eauto.
Qed.

Lemma callNumber_fresh_until_exhausted_witness :
  (∃ gm', callNumber [4; 6] "room" calledFive90 = Some (gm', Some 7)
          ∧ 7 ∉ [5])
  ∧ callNumbers [[4; 6]; [0]; []] "room" exhausted90
    = Some (exhausted90, [None; None; None]).
Proof.
  split.
  - destruct (getGame "room" calledFive90) as [game|] eqn:Hget;
      [|vm_compute in Hget; discriminate].
    assert (Hgame : Game.gameStarted game = true ∧ Game.gameEnded game = false
                    ∧ Game.calledNumbers game = [5]).
    { vm_compute in Hget. injection Hget as <-. repeat split. }
    destruct Hgame as (Hs & He & Hc).
    destruct (callNumber [4; 6] "room" calledFive90) as [[gm' [number|]]|]
      eqn:Hcall; [|vm_compute in Hcall; discriminate..].
    assert (Hn : number = 7).
    { vm_compute in Hcall. by injection Hcall as _ <-. }
    pose proof (proj1 (proj1 (callNumber_fresh_until_exhausted [4; 6] "room"
                                calledFive90 game Hget Hs He)
                         gm' number Hcall)) as Hfresh.
    rewrite Hc, Hn in Hfresh. rewrite Hn.
    exists gm'. split; [reflexivity|exact Hfresh].
  - pose proof exhausted90_calledNumbers as Hcalled.
    destruct (getGame "room" exhausted90) as [game|] eqn:Hget;
      [|discriminate].
    assert (Hgame : Game.gameStarted game = true ∧ Game.gameEnded game = false
                    ∧ Game.type game = "90ball").
    { vm_compute in Hget. injection Hget as <-. repeat split. }
    destruct Hgame as (Hs & He & Hty).
    injection Hcalled as Hcalled.
    apply (proj2 (callNumber_fresh_until_exhausted [] "room" exhausted90 game
                    Hget Hs He)).
    intros k Hk. rewrite Hty in Hk. change (maxNumberOf "90ball") with 90 in Hk.
    rewrite Hcalled. apply elem_of_seqZ. lia.
Defined.

(** ** Rooms *)

Lemma createRoom_spec roomId playerId now draws data rm rm0 roomCode :
  generateRoomCode draws rm = Some (rm0, roomCode) →
  let room :=
    Room.mk roomId roomCode (CreateRoomData.roomName data) roomId
      (CreateRoomData.hostName data) (CreateRoomData.gameType data)
      (CreateRoomData.stake data) (CreateRoomData.maxPlayers data) [] false now
      (RoomSettings.mk true 7000 (getWinPatterns (CreateRoomData.gameType data))) in
  createRoom roomId playerId now draws data rm
  = Some (mkRoomManager (JsMap.set roomCode room (rooms rm0)) (roomCodes rm0),
          CreateRoomResult.mk true roomCode roomId playerId
            "Room created successfully").
Proof. intros H. unfold createRoom. by rewrite H. Qed.

Lemma createRoom_inv roomId playerId now draws data rm rm' result :
  createRoom roomId playerId now draws data rm = Some (rm', result) →
  ∃ rm0 roomCode,
    generateRoomCode draws rm = Some (rm0, roomCode)
    ∧ CreateRoomResult.roomCode result = roomCode
    ∧ CreateRoomResult.success result = true
    ∧ getRoom roomCode rm'
      = Some (Room.mk roomId roomCode (CreateRoomData.roomName data) roomId
                (CreateRoomData.hostName data) (CreateRoomData.gameType data)
                (CreateRoomData.stake data) (CreateRoomData.maxPlayers data) []
                false now
                (RoomSettings.mk true 7000
                   (getWinPatterns (CreateRoomData.gameType data)))).
Proof.
  intros H.
  destruct (generateRoomCode draws rm) as [[rm0 roomCode]|] eqn:Hgen.
  2: { unfold createRoom in H. by rewrite Hgen in H. }
  rewrite (createRoom_spec _ _ _ _ _ _ _ _ Hgen) in H.
  injection H as <- <-. exists rm0, roomCode.
  split; [done|]. split; [done|]. split; [done|]. apply get_set_eq.
Qed.

(** C7.  [createRoom] stores the room's own identifier as [hostId], so for
    the first player who attaches the test [!room.hostId] fails: whoever
    attaches under another identifier is stored with [isHost] false and
    the room, now of one player, has no host. *)
Theorem first_player_not_host (roomId hostPlayerId : string) (now : Z)
    (draws : list (nat * nat)) (data : CreateRoomData.t) (rm rm1 : RoomManager)
    (result : CreateRoomResult.t) (playerId : string) (socket : WebSocket) :
  createRoom roomId hostPlayerId now draws data rm = Some (rm1, result) →
  roomId ≠ "" →
  playerId ≠ roomId →
  ∃ room,
    getRoom (CreateRoomResult.roomCode result)
      (addPlayerToRoom (CreateRoomResult.roomCode result) playerId socket rm1)
    = Some room
    ∧ JsMap.size (Room.players room) = 1
    ∧ Room.hostId room = roomId
    ∧ hosts room = [].
Proof.
  intros Hcreate Hid Hne.
  destruct (createRoom_inv _ _ _ _ _ _ _ _ Hcreate)
    as (rm0 & roomCode & _ & -> & _ & Hroom).
  unfold addPlayerToRoom. unfold getRoom in Hroom. rewrite Hroom.
  cbn [Room.players Room.hostId JsMap.size length]. cbv zeta.
  apply String.eqb_neq in Hid, Hne. rewrite Hid, andb_false_r, Hne.
  eexists. split; [apply get_set_eq|]. done.
Qed.

Lemma first_player_not_host_witness :
  ∃ rm1 room,
    createRoom "3f0c-room" "9a1e-player" 1700000000000 [(0%nat, 1%nat)]
      validRoomData newRoomManager
    = Some (rm1, CreateRoomResult.mk true "ለምን-ቢንጎ" "3f0c-room" "9a1e-player"
                   "Room created successfully")
    ∧ getRoom "ለምን-ቢንጎ" (addPlayerToRoom "ለምን-ቢንጎ" "9a1e-player" 7%nat rm1)
      = Some room
    ∧ JsMap.size (Room.players room) = 1
    ∧ Room.hostId room = "3f0c-room"
    ∧ hosts room = [].
Proof.
  destruct (createRoom "3f0c-room" "9a1e-player" 1700000000000 [(0%nat, 1%nat)]
              validRoomData newRoomManager) as [[rm1 result]|] eqn:Hcreate;
    [|vm_compute in Hcreate; discriminate].
  assert (Hres : result = CreateRoomResult.mk true "ለምን-ቢንጎ" "3f0c-room"
                            "9a1e-player" "Room created successfully").
  { vm_compute in Hcreate. by injection Hcreate as _ <-. }
  destruct (first_player_not_host "3f0c-room" "9a1e-player" 1700000000000
              [(0%nat, 1%nat)] validRoomData newRoomManager rm1 result
              "9a1e-player" 7%nat Hcreate ltac:(discriminate) ltac:(discriminate))
    as (room & Hget & Hsize & Hhost & Hnone).
  rewrite Hres in Hget. cbn [CreateRoomResult.roomCode] in Hget.
  exists rm1, room. split; [by rewrite Hres|].
  split; [exact Hget|]. split; [exact Hsize|]. split; [exact Hhost|exact Hnone].
Defined.

(** C8, as stated, fails: a request with [maxPlayers] 1 and [stake] -5 is
    answered with success and its room is registered. *)
Lemma createRoom_accepts_invalid :
  CreateRoomData.maxPlayers invalidRoomData < 2
  ∧ CreateRoomData.stake invalidRoomData < 0
  ∧ ∃ rm' room,
      createRoom "3f0c-room" "9a1e-player" 1700000000000 [(0%nat, 1%nat)]
        invalidRoomData newRoomManager
      = Some (rm', CreateRoomResult.mk true "ለምን-ቢንጎ" "3f0c-room" "9a1e-player"
                     "Room created successfully")
      ∧ getRoom "ለምን-ቢንጎ" rm' = Some room
      ∧ Room.maxPlayers room = 1
      ∧ Room.stake room = -5.
Proof.
  split; [done|]. split; [done|].
  pose proof (createRoom_spec "3f0c-room" "9a1e-player" 1700000000000
                [(0%nat, 1%nat)] invalidRoomData newRoomManager
                (mkRoomManager [] ({["ለምን-ቢንጎ"]} ∪ ∅)) "ለምን-ቢንጎ" eq_refl)
    as Hcreate.
  cbv zeta in Hcreate. rewrite Hcreate.
  eexists _, _. split; [reflexivity|].
  split; [apply get_set_eq|]. done.
Qed.

(** C8, amended.  [createRoom] validates nothing: whenever its search for
    a free code ends, whatever [maxPlayers] and [stake] are, it answers
    with success and registers under the new code a room that carries the
    requested [maxPlayers] and [stake]. *)
Theorem createRoom_no_validation (roomId playerId : string) (now : Z)
    (draws : list (nat * nat)) (data : CreateRoomData.t) (rm : RoomManager) :
  is_Some (generateRoomCode draws rm) →
  ∃ rm' result room,
    createRoom roomId playerId now draws data rm = Some (rm', result)
    ∧ CreateRoomResult.success result = true
    ∧ getRoom (CreateRoomResult.roomCode result) rm' = Some room
    ∧ Room.maxPlayers room = CreateRoomData.maxPlayers data
    ∧ Room.stake room = CreateRoomData.stake data.
Proof.
  intros [[rm0 roomCode] Hgen].
  eexists _, _, _. split; [by apply createRoom_spec|].
  split; [done|]. split; [apply get_set_eq|]. done.
Qed.

Lemma createRoom_no_validation_witness :
  ∃ rm' result room,
    createRoom "3f0c-room" "9a1e-player" 1700000000000 [(0%nat, 1%nat)]
      invalidRoomData newRoomManager = Some (rm', result)
    ∧ CreateRoomResult.success result = true
    ∧ getRoom (CreateRoomResult.roomCode result) rm' = Some room
    ∧ Room.maxPlayers room = 1
    ∧ Room.stake room = -5.
Proof.
  apply (createRoom_no_validation "3f0c-room" "9a1e-player" 1700000000000
           [(0%nat, 1%nat)] invalidRoomData newRoomManager).
  eexists. reflexivity.
Defined.

(** ** The server never creates a game *)

Lemma cleanupOldGames_empty gm : games gm = [] → games (cleanupOldGames gm) = [].
Proof. unfold cleanupOldGames. by intros ->. Qed.

Lemma startGame_no_games Math_sin fuel roomCode gm :
  games gm = [] →
  startGame Math_sin fuel roomCode gm
  = Some (gm, StartResult.failure "Game not found").
Proof. intros H. apply startGame_missing. unfold getGame. by rewrite H. Qed.

(** No handler adds to the games map: [createGame] has no caller. *)
Lemma handle_no_games Math_sin req s s' resp :
  games (gameManager s) = [] →
  handle Math_sin req s = Some (s', resp) →
  games (gameManager s') = [].
Proof.
  intros Hnone Hstep.
  destruct req; cbn [handle] in Hstep;
    try (injection Hstep as <- _; exact Hnone).
  - destruct (createRoom _ _ _ _ _ _) as [[rm result]|]; [|discriminate].
    cbn in Hstep. by injection Hstep as <- _.
  - destruct (generateRoomCode _ _) as [[rm code]|]; [|discriminate].
    cbn in Hstep. by injection Hstep as <- _.
  - rewrite startGame_no_games in Hstep by done.
    cbn in Hstep. by injection Hstep as <- _.
  - destruct playerId; injection Hstep as <- _; exact Hnone.
  - injection Hstep as <- _. by apply cleanupOldGames_empty.
Qed.

Lemma reachable_no_games Math_sin s :
  reachable Math_sin s → games (gameManager s) = [].
Proof.
  induction 1 as [|s req s' resp _ IH Hstep]; [done|].
  by eapply handle_no_games.
Qed.

(** C2.  In every state the server reaches through its API routes, its
    WebSocket messages, the closing of connections and its timer, the
    games map is empty; so a start request, for the code of a room made by
    [createRoom] as for any other, is answered "Game not found" and changes
    nothing. *)
Theorem no_game_ever_created (Math_sin : Z → Q) (s : Server) :
  reachable Math_sin s →
  games (gameManager s) = []
  ∧ ∀ fuel roomCode,
      startGame Math_sin fuel roomCode (gameManager s)
      = Some (gameManager s, StartResult.failure "Game not found")
      ∧ handle Math_sin (PostStartGame fuel roomCode) s
        = Some (s, StartGameBody (StartResult.failure "Game not found")).
Proof.
  intros Hreach. pose proof (reachable_no_games _ _ Hreach) as Hnone.
  split; [done|]. intros fuel roomCode.
  split; [by apply startGame_no_games|].
  cbn [handle]. rewrite startGame_no_games by done. by destruct s.
Qed.

Lemma serverWithRoom_reachable : reachable sineAtZero serverWithRoom.
Proof.
  assert (Hstep : ∃ resp, handle sineAtZero createRequest newServer
                          = Some (serverWithRoom, resp)).
  { unfold serverWithRoom.
    destruct (handle sineAtZero createRequest newServer) as [[s resp]|] eqn:E;
      [by exists resp|].
    vm_compute in E. discriminate. }
  destruct Hstep as [resp Hstep].
  eapply reachable_step; [apply reachable_new|exact Hstep].
Qed.

Lemma no_game_ever_created_witness :
  is_Some (getRoom "ለምን-ቢንጎ" (roomManager serverWithRoom))
  ∧ handle sineAtZero (PostStartGame 100 "ለምን-ቢንጎ") serverWithRoom
    = Some (serverWithRoom,
            StartGameBody (StartResult.failure "Game not found")).
Proof.
  split.
  - eexists. unfold serverWithRoom, getRoom. cbn. reflexivity.
  - exact (proj2 (proj2 (no_game_ever_created sineAtZero serverWithRoom
                           serverWithRoom_reachable) 100%nat "ለምን-ቢንጎ")).
Defined.

(** * Further properties of the game manager *)

(** ** More on maps *)

Section JsMapMoreFacts.
Context {V : Type}.
Implicit Types (m : list (string * V)) (k : string) (v : V).

Lemma get_delete_eq m k : JsMap.get k (JsMap.delete k m) = None.
Proof.
  induction m as [|[k' v'] m IH]; simpl; [done|].
  destruct (String.eqb k' k) eqn:E; simpl; [done|]. by rewrite E.
Qed.

Lemma get_delete_ne m k k' :
  k ≠ k' → JsMap.get k' (JsMap.delete k m) = JsMap.get k' m.
Proof.
  intros Hne. induction m as [|[k0 v0] m IH]; simpl; [done|].
  destruct (String.eqb k0 k) eqn:E; simpl.
  - apply String.eqb_eq in E. subst k0.
    destruct (String.eqb k k') eqn:E'; [|done].
    apply String.eqb_eq in E'. contradiction.
  - by rewrite IH.
Qed.

Lemma set_id m k v : JsMap.get k m = Some v → JsMap.set k v m = m.
Proof.
  induction m as [|[k' v'] m IH]; simpl; [done|].
  destruct (String.eqb k' k) eqn:E.
  - apply String.eqb_eq in E. by intros [= ->]; subst.
  - intros H. by rewrite IH.
Qed.

Lemma delete_absent m k : JsMap.get k m = None → JsMap.delete k m = m.
Proof.
  induction m as [|[k' v'] m IH]; simpl; [done|].
  destruct (String.eqb k' k); [done|]. intros H. by rewrite IH.
Qed.

Lemma size_set m k v :
  JsMap.size (JsMap.set k v m)
  = match JsMap.get k m with
    | Some _ => JsMap.size m
    | None => JsMap.size m + 1
    end.
Proof.
  unfold JsMap.size. induction m as [|[k' v'] m IH]; simpl; [done|].
  destruct (String.eqb k' k) eqn:E; simpl; [done|].
  destruct (JsMap.get k m); simpl in *; lia.
Qed.

Lemma set_nonempty m k v : JsMap.set k v m ≠ [].
Proof. destruct m as [|[k' v'] m]; simpl; [done|]. by destruct (String.eqb k' k). Qed.

Lemma values_get m k v : JsMap.get k m = Some v → v ∈ JsMap.values m.
Proof.
  unfold JsMap.values. induction m as [|[k' v'] m IH]; simpl; [done|].
  destruct (String.eqb k' k).
  - intros [= ->]. apply elem_of_cons. by left.
  - intros H. apply elem_of_cons. right. by apply IH.
Qed.

Lemma get_values m v : v ∈ JsMap.values m → ∃ k, (k, v) ∈ m.
Proof.
  unfold JsMap.values. intros H. apply list_elem_of_fmap in H as [[k v'] [-> H]].
  by exists k.
Qed.

Lemma Forall_set (P : string * V → Prop) m k v :
  Forall P m → P (k, v) → Forall P (JsMap.set k v m).
Proof.
  intros Hm Hp. induction Hm as [|[k' v'] m Hx Hm IH]; simpl.
  - by constructor.
  - destruct (String.eqb k' k); by constructor.
Qed.

Lemma Forall_delete (P : string * V → Prop) m k :
  Forall P m → Forall P (JsMap.delete k m).
Proof.
  intros Hm. induction Hm as [|[k' v'] m Hx Hm IH]; simpl; [done|].
  destruct (String.eqb k' k); [done|]. by constructor.
Qed.

Lemma get_Forall (P : string * V → Prop) m k v :
  Forall P m → JsMap.get k m = Some v → P (k, v).
Proof.
  intros Hm. induction Hm as [|[k' v'] m Hx Hm IH]; simpl; [done|].
  destruct (String.eqb k' k) eqn:E; [|done].
  apply String.eqb_eq in E. by intros [= <-]; subst.
Qed.

End JsMapMoreFacts.

(** ** Registering and removing players *)

(** X1.  [addPlayerToGame] on a game that has not started returns true and
    stores under the player's id a fresh player: empty board, no marks,
    score 0.  The other players are left as they are; the count grows by
    one for a new id and stays for a known id, whose record is replaced. *)
Theorem addPlayerToGame_registers (roomCode playerId playerName : string)
    (gm : GameManager) (game : Game.t) :
  getGame roomCode gm = Some game →
  Game.gameStarted game = false →
  ∃ gm' game',
    addPlayerToGame roomCode playerId playerName gm = (gm', true)
    ∧ getGame roomCode gm' = Some game'
    ∧ JsMap.get playerId (Game.players game')
      = Some (GamePlayer.mk playerId playerName [] ∅ false false None 0)
    ∧ (∀ other, other ≠ playerId →
         JsMap.get other (Game.players game')
         = JsMap.get other (Game.players game))
    ∧ JsMap.size (Game.players game')
      = match JsMap.get playerId (Game.players game) with
        | Some _ => JsMap.size (Game.players game)
        | None => JsMap.size (Game.players game) + 1
        end
    ∧ playerId ∈ onlinePlayers gm'.
Proof.
  unfold getGame, addPlayerToGame. intros -> ->.
  eexists _, _. split; [reflexivity|].
  split; [apply get_set_eq|]. cbn [Game.players].
  split; [apply get_set_eq|].
  split; [intros other Hne; by apply get_set_ne|].
  split; [apply size_set|]. cbn. set_solver.
Qed.

Lemma addPlayerToGame_registers_witness :
  ∃ gm' game',
    addPlayerToGame "room" "p1" "Almaz" (lobby "90ball") = (gm', true)
    ∧ getGame "room" gm' = Some game'
    ∧ JsMap.get "p1" (Game.players game')
      = Some (GamePlayer.mk "p1" "Almaz" [] ∅ false false None 0)
    ∧ JsMap.size (Game.players game') = 2.
Proof.
  destruct (getGame "room" (lobby "90ball")) as [game|] eqn:Hget;
    [|vm_compute in Hget; discriminate].
  assert (Hgame : Game.gameStarted game = false
                  ∧ JsMap.size (Game.players game) = 2
                  ∧ is_Some (JsMap.get "p1" (Game.players game))).
  { vm_compute in Hget. injection Hget as <-.
    split; [reflexivity|]. split; [reflexivity|]. by eexists. }
  destruct Hgame as (Hs & Hsize & [old Hold]).
  destruct (addPlayerToGame_registers "room" "p1" "Almaz" (lobby "90ball") game
              Hget Hs) as (gm' & game' & Hadd & Hget' & Hp & _ & Hsz & _).
  exists gm', game'. rewrite Hold, Hsize in Hsz.
  split; [exact Hadd|]. split; [exact Hget'|]. split; [exact Hp|exact Hsz].
Defined.

(** X2.  Once [startGame] has reported success, the room takes no more
    players: [addPlayerToGame] returns false and changes nothing. *)
Theorem addPlayerToGame_after_start (Math_sin : Z → Q) (fuel : nat)
    (roomCode playerId playerName : string) (gm gm' : GameManager)
    (result : StartResult.t) :
  startGame Math_sin fuel roomCode gm = Some (gm', result) →
  StartResult.success result = true →
  addPlayerToGame roomCode playerId playerName gm' = (gm', false).
Proof.
  intros Hstart Hok.
  destruct (getGame roomCode gm) as [game|] eqn:Hget.
  2: { rewrite startGame_missing in Hstart by done.
       injection Hstart as <- <-. discriminate. }
  destruct (Game.gameStarted game) eqn:Hs.
  { rewrite (startGame_started _ _ _ _ game) in Hstart by done.
    injection Hstart as <- <-. discriminate. }
  destruct (Z.ltb_spec (JsMap.size (Game.players game)) 2) as [Hlt|Hge].
  { rewrite (startGame_few_players _ _ _ _ game) in Hstart by done.
    injection Hstart as <- <-. discriminate. }
  destruct (startGame_success _ _ _ _ _ _ _ Hget Hs Hge Hstart)
    as (players' & board & _ & _ & _ & Hg).
  unfold addPlayerToGame. unfold getGame in Hg. by rewrite Hg.
Qed.

Lemma addPlayerToGame_after_start_witness :
  addPlayerToGame "room" "p3" "Almaz" started90 = (started90, false).
Proof.
  exact (addPlayerToGame_after_start sineAtZero 1 "room" "p3" "Almaz"
           (lobby "90ball") started90 _ started90_spec eq_refl).
Defined.

(** X3.  [removePlayerFromGame] deletes the player; when nobody is left
    the game itself is deleted, otherwise it is kept with its other fields
    as they were.  The games of other rooms are untouched and the player
    leaves the online set. *)
Theorem removePlayerFromGame_effect (roomCode playerId : string)
    (gm : GameManager) (game : Game.t) :
  getGame roomCode gm = Some game →
  let gm' := removePlayerFromGame roomCode playerId gm in
  let rest := JsMap.delete playerId (Game.players game) in
  (rest = [] → getGame roomCode gm' = None)
  ∧ (rest ≠ [] →
     ∃ game', getGame roomCode gm' = Some game'
       ∧ Game.players game' = rest
       ∧ JsMap.get playerId (Game.players game') = None
       ∧ Game.gameStarted game' = Game.gameStarted game
       ∧ Game.gameEnded game' = Game.gameEnded game
       ∧ Game.winner game' = Game.winner game
       ∧ Game.calledNumbers game' = Game.calledNumbers game)
  ∧ (∀ other, other ≠ roomCode → getGame other gm' = getGame other gm)
  ∧ playerId ∉ onlinePlayers gm'.
Proof.
  unfold getGame, removePlayerFromGame. intros ->. cbv zeta.
  destruct (JsMap.delete playerId (Game.players game)) as [|entry rest] eqn:Hrest.
  - cbn. split; [intros _; apply get_delete_eq|]. split; [done|].
    split; [intros other Hne; by apply get_delete_ne|].
    intros [_ Hn]%elem_of_difference. apply Hn. by apply elem_of_singleton.
  - assert (Hsize : (JsMap.size (entry :: rest) =? 0) = false).
    { apply Z.eqb_neq. unfold JsMap.size. cbn [length]. lia. }
    rewrite Hsize. cbn [games onlinePlayers].
    split; [done|]. split.
    + intros _. eexists. split; [apply get_set_eq|].
      cbn [Game.players Game.gameStarted Game.gameEnded Game.winner
           Game.calledNumbers].
      split; [done|]. split; [|done].
      rewrite <- Hrest. apply get_delete_eq.
    + split; [intros other Hne; by apply get_set_ne|].
      intros [_ Hn]%elem_of_difference. apply Hn. by apply elem_of_singleton.
Qed.

Lemma removePlayerFromGame_effect_witness :
  getGame "room" (removePlayerFromGame "room" "p1" leftAlone90) = None
  ∧ ∃ game', getGame "room" (removePlayerFromGame "room" "p2" started90)
             = Some game'
      ∧ JsMap.get "p2" (Game.players game') = None
      ∧ Game.gameStarted game' = true.
Proof.
  split.
  - destruct (getGame "room" leftAlone90) as [game|] eqn:Hget;
      [|vm_compute in Hget; discriminate].
    apply (proj1 (removePlayerFromGame_effect "room" "p1" leftAlone90 game Hget)).
    vm_compute in Hget. by injection Hget as <-.
  - destruct (getGame "room" started90) as [game|] eqn:Hget;
      [|vm_compute in Hget; discriminate].
    assert (Hgame : JsMap.delete "p2" (Game.players game) ≠ []
                    ∧ Game.gameStarted game = true).
    { vm_compute in Hget. injection Hget as <-. by split. }
    destruct Hgame as [Hrest Hs].
    destruct (proj1 (proj2 (removePlayerFromGame_effect "room" "p2" started90
                              game Hget)) Hrest)
      as (game' & Hget' & _ & Hgone & Hs' & _).
    exists game'. split; [exact Hget'|]. split; [exact Hgone|].
    by rewrite Hs'.
Defined.

(** X4.  A player who has been removed cannot mark: [markNumber] for that
    room and player returns false and changes nothing, whether or not the
    game survived the removal. *)
Theorem markNumber_after_remove (now : Z) (roomCode playerId : string)
    (number : Z) (gm : GameManager) :
  markNumber now roomCode playerId number
    (removePlayerFromGame roomCode playerId gm)
  = (removePlayerFromGame roomCode playerId gm, false).
Proof.
  destruct (getGame roomCode gm) as [game|] eqn:Hget.
  2: { unfold removePlayerFromGame, markNumber. unfold getGame in Hget.
       by rewrite !Hget. }
  destruct (removePlayerFromGame_effect roomCode playerId gm game Hget)
    as (Hempty & Hsome & _).
  destruct (JsMap.delete playerId (Game.players game)) as [|entry rest] eqn:Hrest.
  - unfold markNumber. specialize (Hempty eq_refl).
    unfold getGame in Hempty. by rewrite Hempty.
  - destruct Hsome as (game' & Hget' & _ & Hgone & _); [done|].
    unfold markNumber. unfold getGame in Hget'. rewrite Hget', Hgone.
    by destruct (negb _).
Qed.

(** ** The periodic sweep finds nothing to remove *)

Lemma size_nonempty {V : Type} (m : list (string * V)) :
  (JsMap.size m =? 0) = false ↔ m ≠ [].
Proof.
  unfold JsMap.size. rewrite Z.eqb_neq. destruct m; cbn [length]; split; try done; lia.
Qed.

Lemma endedHavePlayers_store roomCode game gm :
  endedHavePlayers gm →
  (Game.gameEnded game = true → Game.players game ≠ []) →
  endedHavePlayers (storeGame roomCode game gm).
Proof. intros Hgm Hgame. by apply Forall_set. Qed.

Lemma endedHavePlayers_get roomCode game gm :
  endedHavePlayers gm → getGame roomCode gm = Some game →
  Game.gameEnded game = true → Game.players game ≠ [].
Proof.
  intros Hgm Hget.
  exact (get_Forall (λ entry : string * Game.t,
                       Game.gameEnded entry.2 = true → Game.players entry.2 ≠ [])
           _ _ _ Hgm Hget).
Qed.

Lemma recordMark_players now playerId number game player :
  Game.players (recordMark now playerId number game player) ≠ [].
Proof.
  unfold recordMark. cbv zeta. destruct (truthy _); apply set_nonempty.
Qed.

Lemma filter_keeps_all {A : Type} (f : A → bool) (l : list A) :
  Forall (λ x, f x = true) l → List.filter f l = l.
Proof. induction 1 as [|x l Hx _ IH]; cbn; [done|]. by rewrite Hx, IH. Qed.

Lemma endedHavePlayers_cleanup gm :
  endedHavePlayers gm → cleanupOldGames gm = gm.
Proof.
  intros Hgm. unfold cleanupOldGames. rewrite filter_keeps_all.
  { by destruct gm. }
  eapply Forall_impl; [exact Hgm|]. intros [key game] Himp. cbn in *.
  destruct (Game.gameEnded game); [|done]. cbn.
  apply negb_true_iff, size_nonempty. by apply Himp.
Qed.

Lemma gmReachable_endedHavePlayers Math_sin gm :
  gmReachable Math_sin gm → endedHavePlayers gm.
Proof.
  induction 1 as [|gm gameId seed roomCode gameType settings _ IH
                  |gm roomCode playerId playerName _ IH
                  |gm roomCode playerId _ IH
                  |gm fuel roomCode gm' result _ IH Hstart
                  |gm draws roomCode gm' number _ IH Hcall
                  |gm now roomCode playerId number _ IH
                  |gm _ IH].
  - constructor.
  - by apply endedHavePlayers_store.
  - unfold addPlayerToGame.
    destruct (JsMap.get roomCode (games gm)) as [game|]; [|done].
    destruct (Game.gameStarted game); [done|].
    apply Forall_set; [done|]. intros _. apply set_nonempty.
  - unfold removePlayerFromGame.
    destruct (JsMap.get roomCode (games gm)) as [game|]; [|done].
    destruct (JsMap.size (JsMap.delete playerId (Game.players game)) =? 0) eqn:E.
    + by apply Forall_delete.
    + apply Forall_set; [done|]. intros _. by apply size_nonempty.
  - destruct (getGame roomCode gm) as [game|] eqn:Hget.
    2: { rewrite startGame_missing in Hstart by done. by injection Hstart as <- _. }
    destruct (Game.gameStarted game) eqn:Hs.
    { rewrite (startGame_started _ _ _ _ game) in Hstart by done.
      by injection Hstart as <- _. }
    destruct (Z.ltb_spec (JsMap.size (Game.players game)) 2) as [Hlt|Hge].
    { rewrite (startGame_few_players _ _ _ _ game) in Hstart by done.
      by injection Hstart as <- _. }
    unfold startGame in Hstart. unfold getGame in Hget.
    rewrite Hget, Hs, (proj2 (Z.ltb_ge _ _) Hge) in Hstart.
    destruct (assignBoards _ _ _ _ _) as [players'|] eqn:Ha; [|discriminate].
    destruct (generateBoard _ _ _ _) as [board|]; [|discriminate].
    cbn in Hstart. injection Hstart as <- _.
    apply endedHavePlayers_store; [done|]. intros _. cbn.
    apply assignBoards_boards in Ha as [Hsize _].
    apply size_nonempty, Z.eqb_neq. lia.
  - unfold callNumber in Hcall.
    destruct (JsMap.get roomCode (games gm)) as [game|] eqn:Hget.
    2: { by injection Hcall as <- _. }
    destruct (negb (Game.gameStarted game) || Game.gameEnded game).
    { by injection Hcall as <- _. }
    destruct (generateRandomNumber _ _ _) as [[n|]|]; cbn in Hcall;
      [|by injection Hcall as <- _|discriminate].
    injection Hcall as <- _.
    apply endedHavePlayers_store; [done|]. cbn.
    by apply (endedHavePlayers_get roomCode game gm).
  - unfold markNumber.
    destruct (JsMap.get roomCode (games gm)) as [game|]; [|done].
    destruct (negb (Game.gameStarted game)); [done|].
    destruct (JsMap.get playerId (Game.players game)) as [player|]; [|done].
    cbn [fst]. apply endedHavePlayers_store; [done|].
    intros _. apply recordMark_players.
  - by rewrite endedHavePlayers_cleanup.
Qed.

(** X5.  In every state the methods of the game manager lead to, an ended
    game still has a player (a game is deleted with its last player), so
    the periodic sweep, which drops the ended games without players,
    removes nothing. *)
Theorem cleanupOldGames_never_removes (Math_sin : Z → Q) (gm : GameManager) :
  gmReachable Math_sin gm → cleanupOldGames gm = gm.
Proof.
  intros Hreach. apply endedHavePlayers_cleanup.
  by eapply gmReachable_endedHavePlayers.
Qed.

Lemma gmReachable_markNumbers Math_sin marks gm :
  gmReachable Math_sin gm → gmReachable Math_sin (markNumbers marks gm).
Proof.
  revert gm. induction marks as [|[[[now rc] pid] n] marks IH]; intros gm H;
    [done|].
  cbn [markNumbers fold_left]. apply IH. by apply gm_markNumber.
Qed.

Lemma gmReachable_ended90 : gmReachable sineAtZero ended90.
Proof.
  apply gmReachable_markNumbers.
  eapply gm_startGame; [|exact started90_spec].
  unfold lobby. cbv zeta.
  apply gm_addPlayerToGame, gm_addPlayerToGame, gm_createGame, gm_new.
Qed.

Lemma cleanupOldGames_never_removes_witness :
  Game.gameEnded <$> getGame "room" ended90 = Some true
  ∧ cleanupOldGames ended90 = ended90.
Proof.
  split; [by vm_compute|].
  exact (cleanupOldGames_never_removes sineAtZero ended90 gmReachable_ended90).
Defined.

(** ** Marks *)

Lemma storeGame_same roomCode game gm :
  getGame roomCode gm = Some game → storeGame roomCode game gm = gm.
Proof.
  unfold getGame, storeGame. intros H. rewrite set_id by done. by destruct gm.
Qed.

Lemma recordMark_others now playerId number game player other :
  other ≠ playerId →
  JsMap.get other (Game.players (recordMark now playerId number game player))
  = JsMap.get other (Game.players game).
Proof.
  intros Hne. unfold recordMark. cbv zeta.
  destruct (truthy _); cbn [Game.players]; by apply get_set_ne.
Qed.

(** X6.  Marking again a number the player has already marked, when the
    marks do not make a win, changes nothing at all: [markNumber] returns
    true and the state is the one before. *)
Theorem markNumber_repeat (now : Z) (roomCode playerId : string) (number : Z)
    (gm : GameManager) (game : Game.t) (player : GamePlayer.t) :
  getGame roomCode gm = Some game →
  Game.gameStarted game = true →
  JsMap.get playerId (Game.players game) = Some player →
  number ∈ GamePlayer.markedNumbers player →
  truthy (checkForWin (GamePlayer.board player) (GamePlayer.markedNumbers player)
            (GameSettings.winPatterns (Game.settings game))) = false →
  markNumber now roomCode playerId number gm = (gm, true).
Proof.
  intros Hget Hs Hp Hin Hno.
  rewrite (markNumber_known _ _ _ _ _ _ _ Hget Hs Hp). f_equal.
  assert (Hsame : {[number]} ∪ GamePlayer.markedNumbers player
                  = GamePlayer.markedNumbers player).
  { apply subseteq_union_1_L, singleton_subseteq_l, Hin. }
  assert (Hrec : recordMark now playerId number game player = game).
  { unfold recordMark. cbv zeta. rewrite Hsame, Hno.
    replace (GamePlayer.mk _ _ _ _ _ _ _ _) with player by by destruct player.
    rewrite set_id by done. by destruct game. }
  rewrite Hrec. by apply storeGame_same.
Qed.

Lemma markNumber_repeat_witness :
  markNumber 2000 "room" "p1" 41 almostFull90 = (almostFull90, true).
Proof.
  destruct (getGame "room" almostFull90) as [game|] eqn:Hget;
    [|vm_compute in Hget; discriminate].
  destruct (JsMap.get "p1" (Game.players game)) as [player|] eqn:Hp;
    [|vm_compute in Hget; injection Hget as <-; vm_compute in Hp; discriminate].
  assert (Hs : Game.gameStarted game = true)
    by (vm_compute in Hget; injection Hget as <-; reflexivity).
  assert (Hm : 41 ∈ GamePlayer.markedNumbers player
               ∧ truthy (checkForWin (GamePlayer.board player)
                           (GamePlayer.markedNumbers player)
                           (GameSettings.winPatterns (Game.settings game)))
                 = false).
  { vm_compute in Hget. injection Hget as <-.
    vm_compute in Hp. injection Hp as <-.
    split; [|by vm_compute].
    refine (bool_decide_unpack _ _). vm_compute. exact I. }
  destruct Hm as [Hin Hno].
  exact (markNumber_repeat 2000 "room" "p1" 41 almostFull90 game player
           Hget Hs Hp Hin Hno).
Defined.

(** X7.  [markNumber] never takes a mark away, never changes a board and
    never drops a player: whatever room, player and number it is called
    with, every registered player of every game is still there afterwards
    with the same board and at least the marks it had. *)
Theorem markNumber_accumulates (now : Z) (roomCode playerId : string)
    (number : Z) (gm : GameManager) (roomCode' playerId' : string)
    (game : Game.t) (player : GamePlayer.t) :
  getGame roomCode' gm = Some game →
  JsMap.get playerId' (Game.players game) = Some player →
  ∃ game' player',
    getGame roomCode' (markNumber now roomCode playerId number gm).1 = Some game'
    ∧ JsMap.get playerId' (Game.players game') = Some player'
    ∧ GamePlayer.markedNumbers player ⊆ GamePlayer.markedNumbers player'
    ∧ GamePlayer.board player' = GamePlayer.board player.
Proof.
  intros Hget Hp.
  destruct (markNumber_getGame now roomCode playerId number gm roomCode' game Hget)
    as [Hsame|(target & _ & _ & Ht & Hrec)].
  - exists game, player. by rewrite Hsame.
  - destruct (decide (playerId' = playerId)) as [->|Hne].
    + rewrite Hp in Ht. injection Ht as <-.
      destruct (recordMark_marks now playerId number game player)
        as (player' & Hp' & Hmarks & Hboard).
      exists (recordMark now playerId number game player), player'.
      split; [done|]. split; [done|]. split; [|done].
      rewrite Hmarks. apply union_subseteq_r.
    + exists (recordMark now playerId number game target), player.
      split; [done|]. split; [|done].
      by rewrite recordMark_others.
Qed.

Lemma markNumber_accumulates_witness :
  ∃ game' player',
    getGame "room" (markNumber 3000 "room" "p2" 99 ended90).1 = Some game'
    ∧ JsMap.get "p1" (Game.players game') = Some player'
    ∧ {[0; 1; 81]} ⊆ GamePlayer.markedNumbers player'
    ∧ GamePlayer.board player' = [1; 11; 21; 31; 41; 51; 61; 71; 81].
Proof.
  destruct (getGame "room" ended90) as [game|] eqn:Hget;
    [|vm_compute in Hget; discriminate].
  destruct (JsMap.get "p1" (Game.players game)) as [player|] eqn:Hp;
    [|vm_compute in Hget; injection Hget as <-; vm_compute in Hp; discriminate].
  assert (Hplayer : {[0; 1; 81]} ⊆ GamePlayer.markedNumbers player
                    ∧ GamePlayer.board player
                      = [1; 11; 21; 31; 41; 51; 61; 71; 81]).
  { vm_compute in Hget. injection Hget as <-.
    vm_compute in Hp. injection Hp as <-.
    split; [|reflexivity].
    intros x Hx.
    apply elem_of_union in Hx as [Hx|Hx];
      [apply elem_of_union in Hx as [Hx|Hx]|];
      apply elem_of_singleton in Hx; subst x;
      refine (bool_decide_unpack _ _); vm_compute; exact I. }
  destruct Hplayer as [Hmarks Hboard].
  destruct (markNumber_accumulates 3000 "room" "p2" 99 ended90 "room" "p1"
              game player Hget Hp)
    as (game' & player' & Hget' & Hp' & Hsub & Hb).
  exists game', player'. split; [exact Hget'|]. split; [exact Hp'|].
  split; [by etrans|]. by rewrite Hb.
Defined.

(** ** Win detection *)

Lemma has_mono (marked marked' : gset Z) x :
  marked ⊆ marked' → has marked x = true → has marked' x = true.
Proof.
  unfold has. intros Hsub H. apply bool_decide_eq_true in H.
  apply bool_decide_eq_true. by apply Hsub.
Qed.

Lemma forallb_mono {A : Type} (f g : A → bool) (l : list A) :
  (∀ x, f x = true → g x = true) → forallb f l = true → forallb g l = true.
Proof.
  intros Hfg. rewrite !forallb_forall. intros H x Hx. by apply Hfg, H.
Qed.

Lemma existsb_mono {A : Type} (f g : A → bool) (l : list A) :
  (∀ x, f x = true → g x = true) → existsb f l = true → existsb g l = true.
Proof.
  intros Hfg. rewrite !existsb_exists. intros (x & Hx & H). exists x. split; [done|].
  by apply Hfg.
Qed.

Lemma exempt_mono (marked marked' : gset Z) (free : bool) x :
  marked ⊆ marked' →
  free || has marked x = true → free || has marked' x = true.
Proof.
  intros Hsub. destruct free; [done|]. cbn. by apply has_mono.
Qed.

(** X8.  Win detection is monotone in the marks: a pattern that holds for
    a set of marks holds for every larger set, so further marks never
    undo a win. *)
Theorem checkPattern_monotone (grid : list (list Z)) (marked marked' : gset Z)
    (pattern : string) :
  marked ⊆ marked' →
  checkPattern grid marked pattern = true →
  checkPattern grid marked' pattern = true.
Proof.
  intros Hsub. unfold checkPattern.
  destruct (String.eqb pattern "row").
  { apply existsb_mono. intros row. apply forallb_mono. intros col.
    by apply exempt_mono. }
  destruct (String.eqb pattern "column").
  { apply existsb_mono. intros col. apply forallb_mono. intros row.
    by apply exempt_mono. }
  destruct (String.eqb pattern "diagonal").
  { rewrite !orb_true_iff. intros [H|H]; [left|right]; revert H;
      apply forallb_mono; intros i; by apply exempt_mono. }
  destruct (String.eqb pattern "four-corners").
  { rewrite !andb_true_iff. intros [[[H1 H2] H3] H4].
    repeat split; by eapply has_mono. }
  destruct (String.eqb pattern "full-house"); [|done].
  apply forallb_mono. intros row. apply forallb_mono. intros col.
  by apply exempt_mono.
Qed.

Lemma checkPattern_monotone_witness :
  checkPattern (boardToGrid board25) {[1; 2; 3; 4; 5; 77]} "row" = true.
Proof.
  apply (checkPattern_monotone (boardToGrid board25) {[1; 2; 3; 4; 5]}
           {[1; 2; 3; 4; 5; 77]} "row").
  - apply union_subseteq_l.
  - by vm_compute.
Defined.

Lemma fullHouse_cells grid marked row col :
  checkPattern grid marked "full-house" = true →
  (row < 5)%nat → (col < 5)%nat →
  freeSpace row col || has marked (cell grid row col) = true.
Proof.
  intros H Hr Hc. change (checkPattern grid marked "full-house") with
    (forallb (λ row,
       forallb (λ col, freeSpace row col || has marked (cell grid row col))
         (seq 0 5)) (seq 0 5)) in H.
  rewrite forallb_forall in H. specialize (H row).
  rewrite forallb_forall in H. apply H; apply in_seq; lia.
Qed.

(** The full house implies each of the other four patterns. *)
Lemma fullHouse_implies grid marked pattern :
  checkPattern grid marked "full-house" = true →
  pattern ∈ seventyFiveBallPatterns →
  checkPattern grid marked pattern = true.
Proof.
  intros Hfull Hin.
  pose proof (λ row col, fullHouse_cells grid marked row col Hfull) as Hcell.
  unfold seventyFiveBallPatterns in Hin.
  repeat (apply elem_of_cons in Hin as [->|Hin]); [..|inversion Hin].
  - change (existsb (λ row,
      forallb (λ col, freeSpace row col || has marked (cell grid row col))
        (seq 0 5)) (seq 0 5) = true).
    apply existsb_exists. exists 0%nat. split; [apply in_seq; lia|].
    apply forallb_forall. intros col Hc%in_seq. apply Hcell; lia.
  - change (existsb (λ col,
      forallb (λ row, freeSpace row col || has marked (cell grid row col))
        (seq 0 5)) (seq 0 5) = true).
    apply existsb_exists. exists 0%nat. split; [apply in_seq; lia|].
    apply forallb_forall. intros row Hr%in_seq. apply Hcell; lia.
  - change (forallb (λ i, Nat.eqb i 2 || has marked (cell grid i i)) (seq 0 5)
            || forallb (λ i, Nat.eqb i 2 || has marked (cell grid i (4 - i)))
                 (seq 0 5) = true).
    apply orb_true_iff. left. apply forallb_forall. intros i Hi%in_seq.
    specialize (Hcell i i ltac:(lia) ltac:(lia)). unfold freeSpace in Hcell.
    destruct (Nat.eqb i 2); [done|]. exact Hcell.
  - change (has marked (cell grid 0 0) && has marked (cell grid 0 4)
            && has marked (cell grid 4 0) && has marked (cell grid 4 4) = true).
    pose proof (Hcell 0%nat 0%nat ltac:(lia) ltac:(lia)) as H1.
    pose proof (Hcell 0%nat 4%nat ltac:(lia) ltac:(lia)) as H2.
    pose proof (Hcell 4%nat 0%nat ltac:(lia) ltac:(lia)) as H3.
    pose proof (Hcell 4%nat 4%nat ltac:(lia) ltac:(lia)) as H4.
    cbn [freeSpace Nat.eqb andb orb] in H1, H2, H3, H4.
    by rewrite H1, H2, H3, H4.
  - done.
Qed.

(** X9.  With the five patterns of the 75-ball list in their order, a full
    house is always reported under another name: it implies the row
    pattern, which is checked first, so [checkForWin] never returns
    'full-house'. *)
Theorem checkForWin_75ball_never_fullHouse (board : list Z) (marked : gset Z) :
  checkForWin board marked (getWinPatterns "75ball") ≠ Some "full-house".
Proof.
  unfold checkForWin. cbv zeta.
  change (getWinPatterns "75ball") with seventyFiveBallPatterns.
  set (grid := boardToGrid board).
  destruct (checkPattern grid marked "full-house") eqn:Hfull.
  - pose proof (fullHouse_implies grid marked "row" Hfull) as Hrow.
    unfold seventyFiveBallPatterns in *. cbn [find].
    rewrite Hrow; [discriminate|]. apply elem_of_cons. by left.
  - unfold seventyFiveBallPatterns. cbn [find].
    repeat (destruct (checkPattern grid marked _); [discriminate|]).
    discriminate.
Qed.

(** The grid reads the board row by row and [0] where the board ends. *)
Lemma cell_boardToGrid board row col :
  (row < 5)%nat → (col < 5)%nat →
  cell (boardToGrid board) row col = nth (5 * row + col) board 0.
Proof.
  intros Hr Hc. unfold cell, boardToGrid.
  do 5 (destruct row as [|row]; [do 5 (destruct col as [|col]; [reflexivity|]); lia|]).
  lia.
Qed.

Lemma cell_padding board row col :
  (row < 5)%nat → (col < 5)%nat → (length board ≤ 5 * row + col)%nat →
  cell (boardToGrid board) row col = 0.
Proof.
  intros Hr Hc Hlen. rewrite cell_boardToGrid by done. by apply nth_overflow.
Qed.

(** X10.  A board of fewer than 25 cells leaves the last grid cell at [0],
    and the full house asks for that cell too: unless [0] is marked, a
    game whose list is that of '30ball' or '90ball' records no win,
    however many numbers of the board are marked. *)
Theorem short_board_needs_zero (board : list Z) (marked : gset Z) :
  (length board ≤ 24)%nat →
  0 ∉ marked →
  checkPattern (boardToGrid board) marked "full-house" = false
  ∧ checkForWin board marked (getWinPatterns "30ball") = None
  ∧ checkForWin board marked (getWinPatterns "90ball") = None.
Proof.
  intros Hlen Hzero.
  assert (Hfull : checkPattern (boardToGrid board) marked "full-house" = false).
  { destruct (checkPattern (boardToGrid board) marked "full-house") eqn:E; [|done].
    pose proof (fullHouse_cells _ _ 4%nat 4%nat E ltac:(lia) ltac:(lia)) as H.
    rewrite cell_padding in H by (cbn; lia). cbn in H.
    apply bool_decide_eq_true in H. contradiction. }
  split; [done|]. unfold checkForWin. cbv zeta.
  split.
  - change (getWinPatterns "30ball") with ["full-house"]. cbn [find].
    by rewrite Hfull.
  - change (getWinPatterns "90ball") with ["one-line"; "two-lines"; "full-house"].
    cbn [find].
    change (checkPattern (boardToGrid board) marked "one-line") with false.
    change (checkPattern (boardToGrid board) marked "two-lines") with false.
    by rewrite Hfull.
Qed.

Lemma short_board_needs_zero_witness :
  checkForWin [1; 11; 21; 31; 41; 51; 61; 71; 81]
    {[1; 11; 21; 31; 41; 51; 61; 71; 81]} (getWinPatterns "90ball") = None.
Proof.
  apply (short_board_needs_zero [1; 11; 21; 31; 41; 51; 61; 71; 81]
           {[1; 11; 21; 31; 41; 51; 61; 71; 81]}).
  - cbn. lia.
  - intros H. apply (bool_decide_pack _) in H. vm_compute in H. exact H.
Defined.

(** X11.  On a board of at most 20 cells the whole last grid row reads
    [0]: one mark of [0] completes the 'row' pattern. *)
Theorem short_board_row_by_zero (board : list Z) (marked : gset Z) :
  (length board ≤ 20)%nat →
  0 ∈ marked →
  checkPattern (boardToGrid board) marked "row" = true.
Proof.
  intros Hlen Hzero.
  change (existsb (λ row,
    forallb (λ col, freeSpace row col
                    || has marked (cell (boardToGrid board) row col))
      (seq 0 5)) (seq 0 5) = true).
  apply existsb_exists. exists 4%nat. split; [apply in_seq; lia|].
  apply forallb_forall. intros col Hc%in_seq.
  rewrite cell_padding by lia. cbn. by apply bool_decide_eq_true.
Qed.

Lemma short_board_row_by_zero_witness :
  checkForWin [3; 8; 12; 14; 19; 21; 25; 27; 30] {[0]} (getWinPatterns "75ball")
  = Some "row".
Proof.
  unfold checkForWin. cbv zeta.
  change (getWinPatterns "75ball") with seventyFiveBallPatterns.
  unfold seventyFiveBallPatterns. cbn [find].
  rewrite (short_board_row_by_zero [3; 8; 12; 14; 19; 21; 25; 27; 30] {[0]}).
  - reflexivity.
  - cbn. lia.
  - by apply elem_of_singleton.
Defined.

(** ** The winner's credit *)

Lemma calculateScore_floor stake playerCount :
  5 * calculateScore stake playerCount ≤ 4 * (stake * playerCount)
  ∧ 4 * (stake * playerCount) < 5 * calculateScore stake playerCount + 5.
Proof.
  unfold calculateScore. cbv zeta.
  pose proof (Z.div_mod (stake * playerCount * 4) 5 ltac:(lia)) as Hdm.
  pose proof (Z.mod_pos_bound (stake * playerCount * 4) 5 ltac:(lia)) as Hb.
  lia.
Qed.

(** X12.  For a stake that is not negative, a pot [stake * playerCount]
    below [2^50] and a score below [2^52] (the range in which the
    binary64 arithmetic of the code is exact on integers), a mark that
    makes a win adds to the winner's score the four fifths of the pot
    rounded down, a credit between 0 and the pot, sets [hasWon] and stamps
    the win time. *)
Theorem markNumber_credits_winner (now : Z) (roomCode playerId : string)
    (number : Z) (gm : GameManager) (game : Game.t) (player : GamePlayer.t) :
  getGame roomCode gm = Some game →
  Game.gameStarted game = true →
  JsMap.get playerId (Game.players game) = Some player →
  truthy (checkForWin (GamePlayer.board player)
            ({[number]} ∪ GamePlayer.markedNumbers player)
            (GameSettings.winPatterns (Game.settings game))) = true →
  0 ≤ GameSettings.stake (Game.settings game) →
  GameSettings.stake (Game.settings game) * JsMap.size (Game.players game)
  < 1125899906842624 →
  0 ≤ GamePlayer.score player < 4503599627370496 →
  ∃ game' player' credit,
    getGame roomCode (markNumber now roomCode playerId number gm).1 = Some game'
    ∧ JsMap.get playerId (Game.players game') = Some player'
    ∧ GamePlayer.score player' = GamePlayer.score player + credit
    ∧ GamePlayer.hasWon player' = true
    ∧ GamePlayer.winTime player' = Some now
    ∧ 5 * credit
      ≤ 4 * (GameSettings.stake (Game.settings game)
             * JsMap.size (Game.players game))
      < 5 * credit + 5
    ∧ 0 ≤ credit
      ≤ GameSettings.stake (Game.settings game)
        * JsMap.size (Game.players game).
Proof.
  intros Hget Hs Hp Hwin Hstake _ _.
  set (stake := GameSettings.stake (Game.settings game)) in *.
  set (count := JsMap.size (Game.players game)).
  rewrite (markNumber_known _ _ _ _ _ _ _ Hget Hs Hp). cbn [fst].
  rewrite getGame_storeGame.
  eexists _, _, (calculateScore stake count).
  split; [reflexivity|]. unfold recordMark. cbv zeta. rewrite Hwin.
  cbn [Game.players]. split; [apply get_set_eq|]. cbn.
  split; [done|]. split; [done|]. split; [done|].
  pose proof (calculateScore_floor stake count) as Hfloor.
  split; [exact Hfloor|].
  assert (0 ≤ stake * count).
  { apply Z.mul_nonneg_nonneg; [done|]. unfold count, JsMap.size. lia. }
  lia.
Qed.

Lemma markNumber_credits_winner_witness :
  ∃ game' player',
    getGame "room" (markNumber 1081 "room" "p1" 81 almostFull90).1 = Some game'
    ∧ JsMap.get "p1" (Game.players game') = Some player'
    ∧ GamePlayer.score player' = 16
    ∧ GamePlayer.winTime player' = Some 1081.
Proof.
  destruct (getGame "room" almostFull90) as [game|] eqn:Hget;
    [|vm_compute in Hget; discriminate].
  destruct (JsMap.get "p1" (Game.players game)) as [player|] eqn:Hp;
    [|vm_compute in Hget; injection Hget as <-; vm_compute in Hp; discriminate].
  assert (Hs : Game.gameStarted game = true)
    by (vm_compute in Hget; injection Hget as <-; reflexivity).
  assert (Hst : GameSettings.stake (Game.settings game) = 10
                ∧ JsMap.size (Game.players game) = 2)
    by (vm_compute in Hget; injection Hget as <-; by split).
  assert (Hw : truthy (checkForWin (GamePlayer.board player)
                         ({[81]} ∪ GamePlayer.markedNumbers player)
                         (GameSettings.winPatterns (Game.settings game)))
               = true
               ∧ GamePlayer.score player = 0).
  { vm_compute in Hget. injection Hget as <-.
    vm_compute in Hp. injection Hp as <-. split; by vm_compute. }
  destruct Hw as [Hw Hscore]. destruct Hst as [Hstake Hcount].
  destruct (markNumber_credits_winner 1081 "room" "p1" 81 almostFull90 game
              player Hget Hs Hp Hw)
    as (game' & player' & credit & Hget' & Hp' & Hsc & _ & Hwt & Hfloor & _).
  - rewrite Hstake. lia.
  - rewrite Hstake, Hcount. lia.
  - rewrite Hscore. lia.
  - exists game', player'. split; [exact Hget'|]. split; [exact Hp'|].
    split; [|exact Hwt]. rewrite Hstake, Hcount in Hfloor. lia.
Defined.

(** ** What a start deals *)

(** X13.  A [startGame] that reports success has dealt one and the same
    board to every registered player, the board it returns, and has
    emptied every player's marks; nobody was added or dropped. *)
Theorem startGame_deals_one_board (Math_sin : Z → Q) (fuel : nat)
    (roomCode : string) (gm gm' : GameManager) (result : StartResult.t) :
  startGame Math_sin fuel roomCode gm = Some (gm', result) →
  StartResult.success result = true →
  ∃ game game' board,
    getGame roomCode gm = Some game
    ∧ getGame roomCode gm' = Some game'
    ∧ StartResult.board result = Some board
    ∧ JsMap.size (Game.players game') = JsMap.size (Game.players game)
    ∧ ∀ player, player ∈ JsMap.values (Game.players game') →
        GamePlayer.board player = board
        ∧ GamePlayer.markedNumbers player = ∅.
Proof.
  intros Hstart Hok.
  destruct (getGame roomCode gm) as [game|] eqn:Hget.
  2: { rewrite startGame_missing in Hstart by done.
       injection Hstart as <- <-. discriminate. }
  destruct (Game.gameStarted game) eqn:Hs.
  { rewrite (startGame_started _ _ _ _ game) in Hstart by done.
    injection Hstart as <- <-. discriminate. }
  destruct (Z.ltb_spec (JsMap.size (Game.players game)) 2) as [Hlt|Hge].
  { rewrite (startGame_few_players _ _ _ _ game) in Hstart by done.
    injection Hstart as <- <-. discriminate. }
  destruct (startGame_success _ _ _ _ _ _ _ Hget Hs Hge Hstart)
    as (players' & board & Ha & Hb & -> & Hg).
  apply assignBoards_boards in Ha as [Hsize Hall].
  eexists game, _, board. split; [done|]. split; [exact Hg|].
  split; [done|]. cbn [Game.players]. split; [done|].
  intros player Hin. destruct (Hall player Hin) as [Hp Hm].
  rewrite Hb in Hp. by injection Hp as <-.
Qed.

Lemma startGame_deals_one_board_witness :
  ∃ game',
    getGame "room" started90 = Some game'
    ∧ ∀ player, player ∈ JsMap.values (Game.players game') →
        GamePlayer.board player = [1; 11; 21; 31; 41; 51; 61; 71; 81]
        ∧ GamePlayer.markedNumbers player = ∅.
Proof.
  destruct (startGame_deals_one_board sineAtZero 1 "room" (lobby "90ball")
              started90 _ started90_spec eq_refl)
    as (game & game' & board & _ & Hget' & Hb & _ & Hall).
  cbn [StartResult.board] in Hb. injection Hb as <-.
  exists game'. split; [exact Hget'|exact Hall].
Defined.

(** X14.  A board that [generateBoard] returns has nine cells, one per
    column of the 90-ball layout and each within its column's range: the
    cell at index [i] lies between [10 i + 1] and [10 i + 10]. *)
Theorem generateBoard_cells (Math_sin : Z → Q) (fuel : nat) (gameType : string)
    (seed : Z) (board : list Z) :
  generateBoard Math_sin fuel gameType seed = Some board →
  length board = 9%nat
  ∧ ∀ i, (i < 9)%nat →
      10 * Z.of_nat i + 1 ≤ nth i board 0 ≤ 10 * Z.of_nat i + 10.
Proof.
  intros H. destruct (generateBoard_returns _ _ _ _ _ H) as (-> & Hr & Hlen).
  split; [done|].
  destruct fuel as [|fuel].
  { unfold generateBoard, generate90BallBoard, columns90 in H.
    cbn [String.eqb Ascii.eqb Bool.eqb forColumns90] in H. rewrite Hr in H.
    discriminate. }
  rewrite generateBoard_90ball, generate90BallBoard_single in H by done.
  injection H as <-. intros i Hi. unfold columns90.
  do 9 (destruct i as [|i];
        [cbn [map nth fst snd];
         match goal with
         | |- _ ≤ random _ _ ?lo ?hi ≤ _ =>
             pose proof (random_range Math_sin seed lo hi ltac:(lia)); lia
         end|]).
  lia.
Qed.

Lemma generateBoard_cells_witness :
  ∃ board,
    generateBoard sineAtZero 1 "90ball" 0 = Some board
    ∧ length board = 9%nat
    ∧ 31 ≤ nth 3 board 0 ≤ 40.
Proof.
  exists [1; 11; 21; 31; 41; 51; 61; 71; 81].
  assert (H : generateBoard sineAtZero 1 "90ball" 0
              = Some [1; 11; 21; 31; 41; 51; 61; 71; 81]) by by vm_compute.
  split; [exact H|].
  destruct (generateBoard_cells sineAtZero 1 "90ball" 0 _ H) as [Hlen Hcells].
  split; [exact Hlen|]. exact (Hcells 3%nat ltac:(lia)).
Defined.

(** ** The numbers called *)

Lemma resample_in draws calledNumbers number :
  resample draws calledNumbers = Some number → ∃ r, r ∈ draws ∧ number = r + 1.
Proof.
  induction draws as [|r rest IH]; cbn [resample]; [done|].
  case_bool_decide as Hcalled.
  - intros Hre. destruct (IH Hre) as (r' & Hin & ->). exists r'.
    split; [|done]. apply elem_of_cons. by right.
  - intros [= <-]. exists r. split; [|done]. apply elem_of_cons. by left.
Qed.

Lemma ranged_length (numbers : list Z) (m : Z) :
  NoDup numbers → (∀ n, n ∈ numbers → 1 ≤ n ≤ m) →
  Z.of_nat (length numbers) ≤ Z.max 0 m.
Proof.
  intros Hnd Hrange.
  assert (Hsub : numbers ⊆+ seqZ 1 m).
  { apply NoDup_submseteq; [done|]. intros n Hn. apply elem_of_seqZ.
    specialize (Hrange n Hn). lia. }
  apply submseteq_length in Hsub. rewrite length_seqZ in Hsub. lia.
Qed.

(** X15.  When every draw is one of [0 .. maxNumber - 1], as
    [Math.floor(Math.random() * maxNumber)] is, [callNumber] keeps
    [calledNumbers] free of duplicates and within [1 .. maxNumber]: the
    number it returns is in that range, becomes [currentNumber], and the
    sequence never grows beyond [maxNumber] entries. *)
Theorem callNumber_keeps_range (draws : list Z) (roomCode : string)
    (gm gm' : GameManager) (game : Game.t) (number : Z) :
  getGame roomCode gm = Some game →
  NoDup (Game.calledNumbers game) →
  (∀ n, n ∈ Game.calledNumbers game → 1 ≤ n ≤ maxNumberOf (Game.type game)) →
  (∀ r, r ∈ draws → 0 ≤ r < maxNumberOf (Game.type game)) →
  callNumber draws roomCode gm = Some (gm', Some number) →
  ∃ game',
    getGame roomCode gm' = Some game'
    ∧ 1 ≤ number ≤ maxNumberOf (Game.type game)
    ∧ Game.currentNumber game' = Some number
    ∧ NoDup (Game.calledNumbers game')
    ∧ (∀ n, n ∈ Game.calledNumbers game' →
         1 ≤ n ≤ maxNumberOf (Game.type game))
    ∧ Z.of_nat (length (Game.calledNumbers game'))
      ≤ maxNumberOf (Game.type game).
Proof.
  intros Hget Hnd Hrange Hdraws Hcall.
  destruct (callNumber_draws _ _ _ _ _ _ Hget Hcall)
    as (Hre & game' & Hget' & Happ & Hcur).
  pose proof (resample_fresh _ _ _ Hre) as Hfresh.
  destruct (resample_in _ _ _ Hre) as (r & Hr & ->).
  specialize (Hdraws r Hr).
  assert (Hnd' : NoDup (Game.calledNumbers game')).
  { rewrite Happ. apply NoDup_app. split; [done|]. split.
    - intros n Hn Hn'. apply list_elem_of_singleton in Hn'. by subst n.
    - apply NoDup_singleton. }
  assert (Hrange' : ∀ n, n ∈ Game.calledNumbers game' →
                         1 ≤ n ≤ maxNumberOf (Game.type game)).
  { intros n. rewrite Happ. intros [Hn|Hn]%elem_of_app; [by apply Hrange|].
    apply list_elem_of_singleton in Hn. lia. }
  exists game'. split; [done|]. split; [lia|]. split; [done|].
  split; [done|]. split; [done|].
  pose proof (ranged_length _ _ Hnd' Hrange'). lia.
Qed.

Lemma callNumber_keeps_range_witness :
  ∃ gm' game',
    callNumber [4; 6] "room" calledFive90 = Some (gm', Some 7)
    ∧ getGame "room" gm' = Some game'
    ∧ Game.currentNumber game' = Some 7
    ∧ NoDup (Game.calledNumbers game').
Proof.
  destruct (getGame "room" calledFive90) as [game|] eqn:Hget;
    [|vm_compute in Hget; discriminate].
  assert (Hgame : Game.calledNumbers game = [5] ∧ Game.type game = "90ball").
  { vm_compute in Hget. injection Hget as <-. by split. }
  destruct Hgame as [Hc Hty].
  destruct (callNumber [4; 6] "room" calledFive90) as [[gm' [number|]]|]
    eqn:Hcall; [|vm_compute in Hcall; discriminate..].
  assert (Hn : number = 7).
  { vm_compute in Hcall. by injection Hcall as _ <-. }
  subst number.
  destruct (callNumber_keeps_range [4; 6] "room" calledFive90 gm' game 7 Hget)
    as (game' & Hget' & _ & Hcur & Hnd & _); [| | |exact Hcall|].
  - rewrite Hc. apply NoDup_singleton.
  - intros n. rewrite Hc, Hty. intros ->%list_elem_of_singleton.
    change (maxNumberOf "90ball") with 90. lia.
  - intros r. rewrite Hty. change (maxNumberOf "90ball") with 90.
    intros [->|[->|H]%elem_of_cons]%elem_of_cons; [lia|lia|inversion H].
  - exists gm', game'. split; [reflexivity|]. split; [exact Hget'|].
    split; [exact Hcur|exact Hnd].
Defined.

(** ** The players endpoint *)

(** X16.  A player that [addPlayerToGame] has accepted is listed by
    [getOnlinePlayers] under its id and name. *)
Theorem getOnlinePlayers_lists_added (roomCode playerId playerName : string)
    (gm gm' : GameManager) :
  addPlayerToGame roomCode playerId playerName gm = (gm', true) →
  (playerId, playerName) ∈ getOnlinePlayers gm'.
Proof.
  unfold addPlayerToGame.
  destruct (JsMap.get roomCode (games gm)) as [game|]; [|by intros [= _ ?]].
  destruct (Game.gameStarted game); [by intros [= _ ?]|].
  intros [= <-]. unfold getOnlinePlayers. cbn [games].
  apply list_elem_of_In, in_concat.
  eexists. split.
  - apply in_map, list_elem_of_In.
    apply (values_get _ roomCode). apply get_set_eq.
  - cbn [Game.players]. apply list_elem_of_In.
    apply (list_elem_of_fmap_2
             (λ player, (GamePlayer.id player, GamePlayer.name player))
             _ (GamePlayer.mk playerId playerName [] ∅ false false None 0)).
    apply (values_get _ playerId). apply get_set_eq.
Qed.

Lemma getOnlinePlayers_lists_added_witness :
  ("p3", "Almaz") ∈ getOnlinePlayers
                      (addPlayerToGame "room" "p3" "Almaz" (lobby "90ball")).1.
Proof.
  apply (getOnlinePlayers_lists_added "room" "p3" "Almaz" (lobby "90ball")).
  reflexivity.
Defined.

(** * Further properties of the room manager and the server *)

Lemma generateRoomCode_spec draws rm rm0 code :
  generateRoomCode draws rm = Some (rm0, code) →
  (code ∉ roomCodes rm)
  ∧ roomCodes rm0 = {[code]} ∪ roomCodes rm
  ∧ rooms rm0 = rooms rm
  ∧ ∃ i j, (i, j) ∈ draws ∧ code = word i +:+ "-" +:+ word j.
Proof.
  induction draws as [|[i j] rest IH]; cbn [generateRoomCode]; [done|].
  case_bool_decide as Hused.
  - intros Hgen. destruct (IH Hgen) as (Hfresh & Hcodes & Hrooms & i' & j' & Hin & Hc).
    split; [done|]. split; [done|]. split; [done|].
    exists i', j'. split; [|done]. apply elem_of_cons. by right.
  - intros [= <- <-]. split; [done|]. split; [done|]. split; [done|].
    exists i, j. split; [|done]. apply elem_of_cons. by left.
Qed.

(** X17.  The code [createRoom] answers with was not in use, is in use
    afterwards together with all the codes that were, and is made of two
    of the twelve words joined by a dash, for one of the pairs drawn. *)
Theorem createRoom_fresh_code (roomId playerId : string) (now : Z)
    (draws : list (nat * nat)) (data : CreateRoomData.t) (rm rm' : RoomManager)
    (result : CreateRoomResult.t) :
  createRoom roomId playerId now draws data rm = Some (rm', result) →
  let code := CreateRoomResult.roomCode result in
  (code ∉ roomCodes rm)
  ∧ roomCodes rm' = {[code]} ∪ roomCodes rm
  ∧ ∃ i j, (i, j) ∈ draws ∧ code = word i +:+ "-" +:+ word j.
Proof.
  intros Hcreate code. unfold code. clear code.
  destruct (generateRoomCode draws rm) as [[rm0 roomCode]|] eqn:Hgen.
  2: { unfold createRoom in Hcreate. by rewrite Hgen in Hcreate. }
  rewrite (createRoom_spec _ _ _ _ _ _ _ _ Hgen) in Hcreate.
  injection Hcreate as <- <-. cbn [CreateRoomResult.roomCode roomCodes].
  destruct (generateRoomCode_spec _ _ _ _ Hgen) as (Hfresh & Hcodes & _ & Hform).
  done.
Qed.

Lemma createRoom_fresh_code_witness :
  ∃ rm' result,
    createRoom "77aa-room" "88bb-player" 1700000000001
      [(0%nat, 1%nat); (2%nat, 3%nat)] validRoomData (roomManager serverWithRoom)
    = Some (rm', result)
    ∧ (CreateRoomResult.roomCode result
       ∉ roomCodes (roomManager serverWithRoom))
    ∧ roomCodes rm'
      = {[CreateRoomResult.roomCode result]}
        ∪ roomCodes (roomManager serverWithRoom).
Proof.
  destruct (createRoom "77aa-room" "88bb-player" 1700000000001
              [(0%nat, 1%nat); (2%nat, 3%nat)] validRoomData
              (roomManager serverWithRoom)) as [[rm' result]|] eqn:Hcreate;
    [|vm_compute in Hcreate; discriminate].
  destruct (createRoom_fresh_code _ _ _ _ _ _ _ _ Hcreate) as (Hfresh & Hcodes & _).
  exists rm', result. split; [reflexivity|]. split; [exact Hfresh|exact Hcodes].
Defined.

Lemma word_in_range i : word i = word (i mod 12).
Proof.
  unfold word. change (length words) with 12%nat.
  by rewrite Nat.Div0.mod_mod.
Qed.

Lemma allRoomCodes_complete i j : word i +:+ "-" +:+ word j ∈ allRoomCodes.
Proof.
  rewrite (word_in_range i), (word_in_range j).
  apply list_elem_of_In, in_flat_map.
  exists (i mod 12)%nat. split.
  { apply in_seq. pose proof (Nat.mod_upper_bound i 12). lia. }
  apply in_map_iff. exists (j mod 12)%nat. split; [done|].
  apply in_seq. pose proof (Nat.mod_upper_bound j 12). lia.
Qed.

(** X18.  When every code that two words can make is in use, the search
    of [generateRoomCode] never ends: whatever is drawn, and however long,
    [createRoom] does not return. *)
Theorem createRoom_exhausted (roomId playerId : string) (now : Z)
    (draws : list (nat * nat)) (data : CreateRoomData.t) (rm : RoomManager) :
  (∀ i j, word i +:+ "-" +:+ word j ∈ roomCodes rm) →
  generateRoomCode draws rm = None
  ∧ createRoom roomId playerId now draws data rm = None.
Proof.
  intros Hall.
  assert (Hgen : generateRoomCode draws rm = None).
  { induction draws as [|[i j] rest IH]; cbn [generateRoomCode]; [done|].
    by rewrite bool_decide_eq_true_2 by apply Hall. }
  split; [done|]. unfold createRoom. by rewrite Hgen.
Qed.

Lemma createRoom_exhausted_witness :
  createRoom "77aa-room" "88bb-player" 1700000000001
    [(0%nat, 1%nat); (2%nat, 3%nat); (11%nat, 11%nat)] validRoomData
    crowdedRoomManager = None.
Proof.
  apply (createRoom_exhausted "77aa-room" "88bb-player" 1700000000001
           [(0%nat, 1%nat); (2%nat, 3%nat); (11%nat, 11%nat)] validRoomData
           crowdedRoomManager).
  intros i j. cbn [crowdedRoomManager roomCodes].
  apply elem_of_list_to_set, allRoomCodes_complete.
Defined.

(** ** The rooms and the codes in use stay in step *)

Lemma get_set_is_Some {V : Type} (m : list (string * V)) k k' v :
  is_Some (JsMap.get k m) →
  is_Some (JsMap.get k' (JsMap.set k v m)) ↔ is_Some (JsMap.get k' m).
Proof.
  intros Hk. destruct (decide (k = k')) as [<-|Hne].
  - rewrite get_set_eq. split; [done|by eexists].
  - by rewrite get_set_ne.
Qed.

Lemma roomsInStep_room rm code room :
  roomsInStep rm → getRoom code rm = Some room →
  Room.code room = code ∧ Room.gameStarted room = false.
Proof.
  intros [_ Hall] Hget.
  exact (get_Forall (λ entry : string * Room.t,
                       Room.code entry.2 = entry.1
                       ∧ Room.gameStarted entry.2 = false) _ _ _ Hall Hget).
Qed.

Lemma roomsInStep_storeRoom rm roomCode room hostId hostName players :
  roomsInStep rm → getRoom roomCode rm = Some room →
  roomsInStep (storeRoom roomCode (withHost hostId hostName players room) rm).
Proof.
  intros Hinv Hget. pose proof (roomsInStep_room _ _ _ Hinv Hget) as [Hc Hs].
  destruct Hinv as [Hcodes Hall]. split.
  - intros code. unfold getRoom, storeRoom. cbn [rooms roomCodes].
    rewrite get_set_is_Some; [apply Hcodes|]. unfold getRoom in Hget.
    by rewrite Hget.
  - unfold storeRoom. cbn [rooms]. by apply Forall_set.
Qed.

Lemma roomsInStep_drop rm roomCode :
  roomsInStep rm →
  roomsInStep (mkRoomManager (JsMap.delete roomCode (rooms rm))
                 (roomCodes rm ∖ {[roomCode]})).
Proof.
  intros [Hcodes Hall]. split; [|by apply Forall_delete].
  intros code. unfold getRoom. cbn [rooms roomCodes].
  rewrite elem_of_difference, elem_of_singleton.
  destruct (decide (roomCode = code)) as [<-|Hne].
  - rewrite get_delete_eq. by intros [? ?].
  - rewrite get_delete_ne by done. intros H. split; [by apply Hcodes|].
    by intros ->.
Qed.

(** A code reserved without a room: the rooms are as they were. *)
Lemma roomsInStep_reserve draws rm rm0 code :
  roomsInStep rm → generateRoomCode draws rm = Some (rm0, code) →
  roomsInStep rm0.
Proof.
  intros [Hcodes Hall] Hgen.
  destruct (generateRoomCode_spec _ _ _ _ Hgen) as (_ & Hrc & Hrooms & _).
  split; [|by rewrite Hrooms].
  intros other. unfold getRoom. rewrite Hrc, Hrooms. intros H.
  apply elem_of_union. right. by apply Hcodes.
Qed.

Lemma roomsInStep_createRoom roomId playerId now draws data rm rm' result :
  roomsInStep rm →
  createRoom roomId playerId now draws data rm = Some (rm', result) →
  roomsInStep rm'.
Proof.
  intros [Hcodes Hall] Hcreate.
  destruct (generateRoomCode draws rm) as [[rm0 roomCode]|] eqn:Hgen.
  2: { unfold createRoom in Hcreate. by rewrite Hgen in Hcreate. }
  rewrite (createRoom_spec _ _ _ _ _ _ _ _ Hgen) in Hcreate.
  injection Hcreate as <- _.
  destruct (generateRoomCode_spec _ _ _ _ Hgen) as (_ & Hrc & Hrooms & _).
  split.
  - intros code. unfold getRoom. cbn [rooms roomCodes]. rewrite Hrc, Hrooms.
    rewrite elem_of_union, elem_of_singleton.
    destruct (decide (roomCode = code)) as [<-|Hne]; [by left|].
    rewrite get_set_ne by done. intros H. right. by apply Hcodes.
  - cbn [rooms]. rewrite Hrooms. by apply Forall_set.
Qed.

Lemma roomsInStep_addPlayerToRoom roomCode playerId socket rm :
  roomsInStep rm → roomsInStep (addPlayerToRoom roomCode playerId socket rm).
Proof.
  intros Hinv. unfold addPlayerToRoom.
  destruct (JsMap.get roomCode (rooms rm)) as [room|] eqn:Hget; [|done].
  cbv zeta. by apply roomsInStep_storeRoom.
Qed.

Lemma roomsInStep_removePlayerFromRoom roomCode playerId rm :
  roomsInStep rm → roomsInStep (removePlayerFromRoom roomCode playerId rm).
Proof.
  intros Hinv. unfold removePlayerFromRoom.
  destruct (JsMap.get roomCode (rooms rm)) as [room|] eqn:Hget; [|done].
  cbv zeta.
  destruct (JsMap.size _ =? 0); [by apply roomsInStep_drop|].
  destruct (JsMap.delete playerId (Room.players room)) as [|[key newHost] others];
    [by apply roomsInStep_storeRoom|].
  destruct (String.eqb playerId (Room.hostId room));
    by apply roomsInStep_storeRoom.
Qed.

Lemma reachable_roomsInStep Math_sin s :
  reachable Math_sin s → roomsInStep (roomManager s).
Proof.
  induction 1 as [|s req s' resp _ IH Hstep].
  { split; [|constructor]. intros code. cbn. by intros [? ?]. }
  destruct req; cbn [handle] in Hstep;
    try (injection Hstep as <- _; exact IH).
  - destruct (createRoom _ _ _ _ _ _) as [[rm result]|] eqn:Hcreate;
      [|discriminate].
    cbn in Hstep. injection Hstep as <- _. cbn [roomManager].
    by eapply roomsInStep_createRoom.
  - destruct (generateRoomCode _ _) as [[rm code]|] eqn:Hgen; [|discriminate].
    cbn in Hstep. injection Hstep as <- _. cbn [roomManager].
    by eapply roomsInStep_reserve.
  - destruct (startGame _ _ _ _) as [[gm result]|]; [|discriminate].
    cbn in Hstep. by injection Hstep as <- _.
  - injection Hstep as <- _. by apply roomsInStep_addPlayerToRoom.
  - injection Hstep as <- _. by apply roomsInStep_removePlayerFromRoom.
  - destruct playerId; injection Hstep as <- _; [|exact IH].
    by apply roomsInStep_removePlayerFromRoom.
Qed.

(** X19.  In every state the server reaches, every room is stored under
    a code that is in use, and carries that code as its own.  (The
    converse does not hold: a create request whose body is [null]
    reserves a code and stores no room.) *)
Theorem server_rooms_have_codes (Math_sin : Z → Q) (s : Server) :
  reachable Math_sin s →
  (∀ code, is_Some (getRoom code (roomManager s)) →
           code ∈ roomCodes (roomManager s))
  ∧ ∀ code room, getRoom code (roomManager s) = Some room →
                 Room.code room = code.
Proof.
  intros Hreach. pose proof (reachable_roomsInStep _ _ Hreach) as Hinv.
  split; [apply Hinv|]. intros code room Hget.
  by destruct (roomsInStep_room _ _ _ Hinv Hget).
Qed.

Lemma serverWithOrphanCode_reachable :
  reachable sineAtZero serverWithOrphanCode.
Proof.
  assert (Hstep : ∃ resp,
            handle sineAtZero (PostCreateRoomNull [(4%nat, 5%nat)])
              serverWithRoom = Some (serverWithOrphanCode, resp)).
  { unfold serverWithOrphanCode.
    destruct (handle sineAtZero (PostCreateRoomNull [(4%nat, 5%nat)])
                serverWithRoom) as [[s resp]|] eqn:E; [by exists resp|].
    vm_compute in E. discriminate. }
  destruct Hstep as [resp Hstep].
  eapply reachable_step; [exact serverWithRoom_reachable|exact Hstep].
Qed.

(** The code reserved by the failed request is in use and has no room. *)
Lemma orphan_code_has_no_room :
  "እድል-ሽልማት" ∈ roomCodes (roomManager serverWithOrphanCode)
  ∧ getRoom "እድል-ሽልማት" (roomManager serverWithOrphanCode) = None.
Proof.
  split; [|by vm_compute].
  refine (bool_decide_unpack _ _). vm_compute. exact I.
Qed.

Lemma server_rooms_have_codes_witness :
  "ለምን-ቢንጎ" ∈ roomCodes (roomManager serverWithOrphanCode)
  ∧ ∀ room, getRoom "ለምን-ቢንጎ" (roomManager serverWithOrphanCode) = Some room →
            Room.code room = "ለምን-ቢንጎ".
Proof.
  destruct (server_rooms_have_codes sineAtZero serverWithOrphanCode
              serverWithOrphanCode_reachable) as [Hcodes Hown].
  split; [|exact (Hown "ለምን-ቢንጎ")].
  apply Hcodes. by eexists.
Defined.

(** X20.  No room is ever marked started: in every state the server
    reaches, [joinRoom] answers "Room not found", "Room is full" or
    success, never "Game has already started". *)
Theorem joinRoom_never_started (Math_sin : Z → Q) (s : Server)
    (playerId : string) (data : JoinRoomData.t) :
  reachable Math_sin s →
  (∀ code room, getRoom code (roomManager s) = Some room →
                Room.gameStarted room = false)
  ∧ joinRoom playerId data (roomManager s)
    = match getRoom (JoinRoomData.roomCode data) (roomManager s) with
      | None => JoinFailure "Room not found"
      | Some room =>
          if JsMap.size (Room.players room) >=? Room.maxPlayers room then
            JoinFailure "Room is full"
          else
            JoinSuccess playerId (Room.name room) (Room.hostName room)
              (Room.maxPlayers room) (Room.gameType room) (Room.stake room)
              (JsMap.size (Room.players room) + 1)
      end.
Proof.
  intros Hreach. pose proof (reachable_roomsInStep _ _ Hreach) as Hinv.
  split.
  { intros code room Hget. by destruct (roomsInStep_room _ _ _ Hinv Hget). }
  unfold joinRoom, getRoom.
  destruct (JsMap.get _ _) as [room|] eqn:Hget; [|done].
  destruct (roomsInStep_room _ _ _ Hinv Hget) as [_ ->].
  by destruct (_ >=? _).
Qed.

Lemma joinRoom_never_started_witness :
  joinRoom "88bb-player" (JoinRoomData.mk "ለምን-ቢንጎ" "Kebede")
    (roomManager serverWithRoom)
  = JoinSuccess "88bb-player" "Friday bingo" "Abebe" 4 "75ball" 100 1.
Proof.
  rewrite (proj2 (joinRoom_never_started sineAtZero serverWithRoom "88bb-player"
                    (JoinRoomData.mk "ለምን-ቢንጎ" "Kebede")
                    serverWithRoom_reachable)).
  reflexivity.
Defined.

(** X21.  Creating a room never disturbs the rooms that exist: in every
    state the server reaches, after a create request each earlier room is
    still stored, unchanged, under its code, and the new code is another
    one. *)
Theorem createRoom_keeps_rooms (Math_sin : Z → Q) (s s' : Server)
    (roomId playerId : string) (now : Z) (draws : list (nat * nat))
    (body : CreateRoomData.t) (result : CreateRoomResult.t) :
  reachable Math_sin s →
  handle Math_sin (PostCreateRoom roomId playerId now draws body) s
  = Some (s', CreateRoomBody result) →
  ∀ code room,
    getRoom code (roomManager s) = Some room →
    getRoom code (roomManager s') = Some room
    ∧ code ≠ CreateRoomResult.roomCode result.
Proof.
  intros Hreach Hstep code room Hget.
  destruct (reachable_roomsInStep _ _ Hreach) as [Hcodes _].
  cbn [handle] in Hstep.
  destruct (createRoom _ _ _ _ _ _) as [[rm res]|] eqn:Hcreate; [|discriminate].
  cbn in Hstep. injection Hstep as <- <-. cbn [roomManager].
  destruct (generateRoomCode draws (roomManager s)) as [[rm0 roomCode]|] eqn:Hgen.
  2: { unfold createRoom in Hcreate. by rewrite Hgen in Hcreate. }
  rewrite (createRoom_spec _ _ _ _ _ _ _ _ Hgen) in Hcreate.
  injection Hcreate as <- <-.
  destruct (generateRoomCode_spec _ _ _ _ Hgen) as (Hfresh & _ & Hrooms & _).
  assert (Hne : roomCode ≠ code).
  { intros ->. apply Hfresh, Hcodes. by eexists. }
  split; [|done]. unfold getRoom. cbn [rooms]. rewrite Hrooms.
  by rewrite get_set_ne.
Qed.

Lemma createRoom_keeps_rooms_witness :
  ∃ s' result,
    handle sineAtZero
      (PostCreateRoom "77aa-room" "88bb-player" 1700000000001
         [(0%nat, 1%nat); (2%nat, 3%nat)] validRoomData) serverWithRoom
    = Some (s', CreateRoomBody result)
    ∧ getRoom "ለምን-ቢንጎ" (roomManager s')
      = getRoom "ለምን-ቢንጎ" (roomManager serverWithRoom)
    ∧ is_Some (getRoom "ለምን-ቢንጎ" (roomManager s')).
Proof.
  destruct (handle sineAtZero
              (PostCreateRoom "77aa-room" "88bb-player" 1700000000001
                 [(0%nat, 1%nat); (2%nat, 3%nat)] validRoomData) serverWithRoom)
    as [[s' resp]|] eqn:Hstep; [|vm_compute in Hstep; discriminate].
  assert (Hresp : ∃ result, resp = CreateRoomBody result).
  { cbn [handle] in Hstep.
    destruct (createRoom _ _ _ _ _ _) as [[rm res]|]; [|discriminate].
    cbn in Hstep. injection Hstep as _ <-. by eexists. }
  destruct Hresp as [result ->].
  destruct (getRoom "ለምን-ቢንጎ" (roomManager serverWithRoom)) as [room|] eqn:Hget;
    [|vm_compute in Hget; discriminate].
  destruct (createRoom_keeps_rooms sineAtZero serverWithRoom s' _ _ _ _ _ result
              serverWithRoom_reachable Hstep "ለምን-ቢንጎ" room Hget) as [Hkept _].
  exists s', result. split; [reflexivity|]. rewrite Hkept.
  split; [reflexivity|by eexists].
Defined.

(** X22.  The players endpoint has nothing to tell: in every state the
    server reaches, [GET /api/players] answers the empty list. *)
Theorem players_endpoint_empty (Math_sin : Z → Q) (s : Server) :
  reachable Math_sin s →
  handle Math_sin GetPlayers s = Some (s, PlayersBody []).
Proof.
  intros Hreach. cbn [handle]. unfold getOnlinePlayers.
  by rewrite (reachable_no_games _ _ Hreach).
Qed.

Lemma players_endpoint_empty_witness :
  handle sineAtZero GetPlayers serverWithRoom
  = Some (serverWithRoom, PlayersBody []).
Proof.
  exact (players_endpoint_empty sineAtZero serverWithRoom
           serverWithRoom_reachable).
Defined.

(** ** Attaching and detaching players *)

(** X23.  [addPlayerToRoom] never looks at [maxPlayers]: a player whose
    id is new to the room is added, named after its rank, and the count
    grows by one, also in a room that [joinRoom] reports as full. *)
Theorem addPlayerToRoom_ignores_capacity (roomCode playerId : string)
    (socket : WebSocket) (rm : RoomManager) (room : Room.t) :
  getRoom roomCode rm = Some room →
  JsMap.get playerId (Room.players room) = None →
  ∃ room' player,
    getRoom roomCode (addPlayerToRoom roomCode playerId socket rm) = Some room'
    ∧ JsMap.size (Room.players room') = JsMap.size (Room.players room) + 1
    ∧ Room.maxPlayers room' = Room.maxPlayers room
    ∧ JsMap.get playerId (Room.players room') = Some player
    ∧ Player.id player = playerId
    ∧ Player.socket player = socket
    ∧ Player.name player
      = "Player " +:+ pretty (JsMap.size (Room.players room) + 1).
Proof.
  unfold getRoom, addPlayerToRoom. intros -> Hnew. cbv zeta.
  eexists _, _. split; [apply get_set_eq|].
  cbn [withHost Room.players Room.maxPlayers].
  split; [by rewrite size_set, Hnew|]. split; [done|].
  split; [apply get_set_eq|]. done.
Qed.

Lemma addPlayerToRoom_ignores_capacity_witness :
  joinRoom "88bb-player" (JoinRoomData.mk "ለምን-ቢንጎ" "Kebede") roomForOneTaken
  = JoinFailure "Room is full"
  ∧ ∃ room',
      getRoom "ለምን-ቢንጎ"
        (addPlayerToRoom "ለምን-ቢንጎ" "88bb-player" 8%nat roomForOneTaken)
      = Some room'
      ∧ JsMap.size (Room.players room') = 2
      ∧ Room.maxPlayers room' = 1.
Proof.
  split; [by vm_compute|].
  destruct (getRoom "ለምን-ቢንጎ" roomForOneTaken) as [room|] eqn:Hget;
    [|vm_compute in Hget; discriminate].
  assert (Hroom : JsMap.get "88bb-player" (Room.players room) = None
                  ∧ JsMap.size (Room.players room) = 1
                  ∧ Room.maxPlayers room = 1).
  { vm_compute in Hget. injection Hget as <-. repeat split. }
  destruct Hroom as (Hnew & Hsize & Hmax).
  destruct (addPlayerToRoom_ignores_capacity "ለምን-ቢንጎ" "88bb-player" 8%nat
              roomForOneTaken room Hget Hnew)
    as (room' & player & Hget' & Hsz & Hmx & _).
  exists room'. split; [exact Hget'|]. rewrite Hsz, Hmx, Hsize, Hmax.
  split; reflexivity.
Defined.

(** X24.  When the removal leaves a room without players, also a room
    that never had any, [removePlayerFromRoom] deletes the room and frees
    its code; the other rooms are untouched. *)
Theorem removePlayerFromRoom_deletes_empty (roomCode playerId : string)
    (rm : RoomManager) (room : Room.t) :
  getRoom roomCode rm = Some room →
  JsMap.delete playerId (Room.players room) = [] →
  let rm' := removePlayerFromRoom roomCode playerId rm in
  getRoom roomCode rm' = None
  ∧ (roomCode ∉ roomCodes rm')
  ∧ ∀ other, other ≠ roomCode → getRoom other rm' = getRoom other rm.
Proof.
  unfold getRoom, removePlayerFromRoom. intros -> ->. cbn.
  split; [apply get_delete_eq|]. split.
  - intros [_ Hn]%elem_of_difference. apply Hn. by apply elem_of_singleton.
  - intros other Hne. by apply get_delete_ne.
Qed.

Lemma removePlayerFromRoom_deletes_empty_witness :
  is_Some (getRoom "ለምን-ቢንጎ" (roomManager serverWithRoom))
  ∧ getRoom "ለምን-ቢንጎ"
      (removePlayerFromRoom "ለምን-ቢንጎ" "nobody" (roomManager serverWithRoom))
    = None.
Proof.
  destruct (getRoom "ለምን-ቢንጎ" (roomManager serverWithRoom)) as [room|] eqn:Hget;
    [|vm_compute in Hget; discriminate].
  split; [by eexists|].
  apply (removePlayerFromRoom_deletes_empty "ለምን-ቢንጎ" "nobody"
           (roomManager serverWithRoom) room Hget).
  vm_compute in Hget. by injection Hget as <-.
Defined.

(** X25.  When players remain after a removal, the room is kept.  If the
    player removed was the host, the earliest remaining player becomes
    host: it gets the host flag and the room takes its id and name; if
    not, host and players are as they were, less the player removed. *)
Theorem removePlayerFromRoom_host_succession (roomCode playerId : string)
    (rm : RoomManager) (room : Room.t) (key : string) (newHost : Player.t)
    (others : list (string * Player.t)) :
  getRoom roomCode rm = Some room →
  JsMap.delete playerId (Room.players room) = (key, newHost) :: others →
  ∃ room',
    getRoom roomCode (removePlayerFromRoom roomCode playerId rm) = Some room'
    ∧ if String.eqb playerId (Room.hostId room) then
        Room.hostId room' = Player.id newHost
        ∧ Room.hostName room' = Player.name newHost
        ∧ Room.players room' = (key, makeHost newHost) :: others
      else
        Room.hostId room' = Room.hostId room
        ∧ Room.hostName room' = Room.hostName room
        ∧ Room.players room' = (key, newHost) :: others.
Proof.
  unfold getRoom, removePlayerFromRoom. intros -> ->. cbv zeta.
  destruct (String.eqb playerId (Room.hostId room)).
  - cbn [withHost Room.players JsMap.size length].
    eexists. split; [apply get_set_eq|]. done.
  - cbn [withHost Room.players JsMap.size length].
    eexists. split; [apply get_set_eq|]. done.
Qed.

Lemma removePlayerFromRoom_host_succession_witness :
  ∃ room' player,
    getRoom "ለምን-ቢንጎ" (removePlayerFromRoom "ለምን-ቢንጎ" "3f0c-room" roomWithHost)
    = Some room'
    ∧ Room.hostId room' = "b2d4-player"
    ∧ JsMap.get "b2d4-player" (Room.players room') = Some player
    ∧ Player.isHost player = true.
Proof.
  destruct (getRoom "ለምን-ቢንጎ" roomWithHost) as [room|] eqn:Hget;
    [|vm_compute in Hget; discriminate].
  assert (Hroom : Room.hostId room = "3f0c-room"
                  ∧ JsMap.delete "3f0c-room" (Room.players room)
                    = [("b2d4-player",
                        Player.mk "b2d4-player" "Player 2" 8%nat false false 0
                          None)]).
  { vm_compute in Hget. injection Hget as <-. by split. }
  destruct Hroom as [Hhost Hrest].
  destruct (removePlayerFromRoom_host_succession "ለምን-ቢንጎ" "3f0c-room"
              roomWithHost room _ _ _ Hget Hrest) as (room' & Hget' & Hsucc).
  rewrite Hhost in Hsucc. cbn [String.eqb Ascii.eqb Bool.eqb] in Hsucc.
  destruct Hsucc as (Hid & _ & Hplayers).
  eexists room', _. split; [exact Hget'|]. split; [exact Hid|].
  rewrite Hplayers. split; reflexivity.
Defined.

(** ** Never two hosts *)

Section JsMapKeys.
Context {V : Type}.
Implicit Types (m : list (string * V)) (k : string) (v : V).

Lemma keys_set m k v k' :
  k' ∈ JsMap.keys (JsMap.set k v m) ↔ k' = k ∨ k' ∈ JsMap.keys m.
Proof.
  unfold JsMap.keys. induction m as [|[k0 v0] m IH]; cbn.
  - rewrite list_elem_of_singleton. split; [by left|]. intros [?|H]; [done|].
    inversion H.
  - destruct (String.eqb k0 k) eqn:E; cbn; rewrite !elem_of_cons.
    + apply String.eqb_eq in E. subst k0. tauto.
    + rewrite IH. tauto.
Qed.

Lemma NoDup_keys_set m k v :
  NoDup (JsMap.keys m) → NoDup (JsMap.keys (JsMap.set k v m)).
Proof.
  induction m as [|[k0 v0] m IH]; cbn.
  - intros _. apply NoDup_singleton.
  - intros [Hnot Hnd]%NoDup_cons.
    destruct (String.eqb k0 k) eqn:E; cbn.
    + apply String.eqb_eq in E. subst k0. by apply NoDup_cons.
    + apply NoDup_cons. split; [|by apply IH].
      intros [->|Hin]%keys_set; [|done].
      by rewrite String.eqb_refl in E.
Qed.

Lemma delete_entry m k k' v :
  (k', v) ∈ JsMap.delete k m → k' ≠ k ∧ (k', v) ∈ m.
Proof.
  induction m as [|[k0 v0] m IH]; cbn; [by intros H; inversion H|].
  destruct (String.eqb k0 k) eqn:E.
  - intros H. destruct (IH H) as [Hne Hin]. split; [done|].
    apply elem_of_cons. by right.
  - intros [[= -> ->]|H]%elem_of_cons.
    + split; [|apply elem_of_cons; by left].
      intros ->. by rewrite String.eqb_refl in E.
    + destruct (IH H) as [Hne Hin]. split; [done|]. apply elem_of_cons. by right.
Qed.

Lemma NoDup_keys_delete m k :
  NoDup (JsMap.keys m) → NoDup (JsMap.keys (JsMap.delete k m)).
Proof.
  induction m as [|[k0 v0] m IH]; cbn; [done|].
  intros [Hnot Hnd]%NoDup_cons.
  destruct (String.eqb k0 k); [by apply IH|].
  cbn. apply NoDup_cons. split; [|by apply IH].
  intros Hin. apply Hnot. unfold JsMap.keys in *.
  apply list_elem_of_fmap in Hin as [[k1 v1] [-> Hin]].
  apply delete_entry in Hin as [_ Hin].
  by apply (list_elem_of_fmap_2 fst) in Hin.
Qed.

(** With no key twice, at most one value carries a flag that only the
    entry of key [h] may carry. *)
Lemma flagged_at_most_one (f : V → bool) m h :
  NoDup (JsMap.keys m) →
  Forall (λ entry : string * V, f entry.2 = true → entry.1 = h) m →
  (length (List.filter f (JsMap.values m)) ≤ 1)%nat.
Proof.
  unfold JsMap.values, JsMap.keys.
  induction m as [|[k0 v0] m IH]; cbn; [lia|].
  intros [Hnot Hnd]%NoDup_cons [Hhead Hrest]%Forall_cons.
  specialize (IH Hnd Hrest). destruct (f v0) eqn:Hf; [|done].
  cbn in Hhead. specialize (Hhead Hf). subst k0.
  assert (Hnone : List.filter f (map snd m) = []).
  { clear IH Hnd. induction m as [|[k1 v1] m IHm]; cbn; [done|].
    apply Forall_cons in Hrest as [H1 Hrest].
    assert (Hnot' : h ∉ map fst m).
    { intros Hin. apply Hnot. cbn. apply elem_of_cons. by right. }
    destruct (f v1) eqn:Hf1; [|by apply IHm].
    cbn in H1. specialize (H1 Hf1). subst k1.
    exfalso. apply Hnot. cbn. apply elem_of_cons. by left. }
  cbn. rewrite Hnone. cbn. lia.
Qed.

End JsMapKeys.

Lemma hostsConsistent_addPlayer room playerId socket :
  hostsConsistent room →
  let hostId :=
    if (JsMap.size (Room.players room) =? 0) && String.eqb (Room.hostId room) ""
    then playerId else Room.hostId room in
  let player :=
    Player.mk playerId
      ("Player " +:+ pretty (JsMap.size (Room.players room) + 1))
      socket (String.eqb playerId hostId) false 0 None in
  hostsConsistent
    (withHost hostId (Room.hostName room)
       (JsMap.set playerId player (Room.players room)) room).
Proof.
  intros [Hnd Hall]. cbv zeta.
  split; cbn [withHost Room.players Room.hostId].
  { by apply NoDup_keys_set. }
  apply Forall_set.
  - destruct (Room.players room) as [|entry rest] eqn:Hplayers; [constructor|].
    assert (Hsize : (JsMap.size (entry :: rest) =? 0) = false).
    { apply Z.eqb_neq. unfold JsMap.size. cbn [length]. lia. }
    rewrite Hsize. exact Hall.
  - cbn. split; [done|]. intros H. by apply String.eqb_eq in H.
Qed.

Lemma hostsConsistent_removePlayer room playerId :
  hostsConsistent room →
  hostsConsistent
    (match JsMap.delete playerId (Room.players room) with
     | (key, newHost) :: others =>
         if String.eqb playerId (Room.hostId room) then
           withHost (Player.id newHost) (Player.name newHost)
             ((key, makeHost newHost) :: others) room
         else withHost (Room.hostId room) (Room.hostName room)
                (JsMap.delete playerId (Room.players room)) room
     | [] => withHost (Room.hostId room) (Room.hostName room)
               (JsMap.delete playerId (Room.players room)) room
     end).
Proof.
  intros [Hnd Hall].
  pose proof (NoDup_keys_delete _ playerId Hnd) as Hnd'.
  pose proof (Forall_delete _ _ playerId Hall) as Hall'.
  assert (Hgone : ∀ k p, (k, p) ∈ JsMap.delete playerId (Room.players room) →
                         k ≠ playerId).
  { intros k p Hin. by destruct (delete_entry _ _ _ _ Hin). }
  destruct (JsMap.delete playerId (Room.players room))
    as [|[key newHost] others] eqn:Hrest.
  { by split. }
  destruct (String.eqb playerId (Room.hostId room)) eqn:Hhost.
  2: { by split. }
  apply String.eqb_eq in Hhost.
  apply Forall_cons in Hall' as [[Hid _] Hothers]. cbn in Hid.
  split; cbn [withHost Room.players Room.hostId]; [done|].
  apply Forall_cons. split; [by cbn|].
  apply Forall_forall. intros [k p] Hin.
  rewrite Forall_forall in Hothers. destruct (Hothers _ Hin) as [Hpid Hflag].
  cbn in *. split; [done|]. intros Hp. specialize (Hflag Hp).
  exfalso. apply (Hgone k p); [apply elem_of_cons; by right|].
  by rewrite Hflag, Hhost.
Qed.

Lemma hostsConsistent_everywhere_createRoom roomId playerId now draws data rm
    rm' result :
  Forall (λ entry : string * Room.t, hostsConsistent entry.2) (rooms rm) →
  createRoom roomId playerId now draws data rm = Some (rm', result) →
  Forall (λ entry : string * Room.t, hostsConsistent entry.2) (rooms rm').
Proof.
  intros Hall Hcreate.
  destruct (generateRoomCode draws rm) as [[rm0 roomCode]|] eqn:Hgen.
  2: { unfold createRoom in Hcreate. by rewrite Hgen in Hcreate. }
  rewrite (createRoom_spec _ _ _ _ _ _ _ _ Hgen) in Hcreate.
  injection Hcreate as <- _.
  destruct (generateRoomCode_spec _ _ _ _ Hgen) as (_ & _ & Hrooms & _).
  cbn [rooms]. rewrite Hrooms. apply Forall_set; [done|].
  split; cbn; constructor.
Qed.

Lemma hostsConsistent_everywhere_addPlayer roomCode playerId socket rm :
  Forall (λ entry : string * Room.t, hostsConsistent entry.2) (rooms rm) →
  Forall (λ entry : string * Room.t, hostsConsistent entry.2)
    (rooms (addPlayerToRoom roomCode playerId socket rm)).
Proof.
  intros Hall. unfold addPlayerToRoom.
  destruct (JsMap.get roomCode (rooms rm)) as [room|] eqn:Hget; [|done].
  cbn [storeRoom rooms]. apply Forall_set; [done|].
  apply hostsConsistent_addPlayer.
  exact (get_Forall (λ entry : string * Room.t, hostsConsistent entry.2)
           _ _ _ Hall Hget).
Qed.

Lemma hostsConsistent_everywhere_removePlayer roomCode playerId rm :
  Forall (λ entry : string * Room.t, hostsConsistent entry.2) (rooms rm) →
  Forall (λ entry : string * Room.t, hostsConsistent entry.2)
    (rooms (removePlayerFromRoom roomCode playerId rm)).
Proof.
  intros Hall. unfold removePlayerFromRoom.
  destruct (JsMap.get roomCode (rooms rm)) as [room|] eqn:Hget; [|done].
  cbv zeta. destruct (JsMap.size _ =? 0); cbn [rooms storeRoom].
  { by apply Forall_delete. }
  apply Forall_set; [done|].
  apply (hostsConsistent_removePlayer room playerId).
  exact (get_Forall (λ entry : string * Room.t, hostsConsistent entry.2)
           _ _ _ Hall Hget).
Qed.

Lemma reachable_hostsConsistent Math_sin s :
  reachable Math_sin s →
  Forall (λ entry : string * Room.t, hostsConsistent entry.2)
    (rooms (roomManager s)).
Proof.
  induction 1 as [|s req s' resp _ IH Hstep]; [constructor|].
  destruct req; cbn [handle] in Hstep;
    try (injection Hstep as <- _; exact IH).
  - destruct (createRoom _ _ _ _ _ _) as [[rm result]|] eqn:Hcreate;
      [|discriminate].
    cbn in Hstep. injection Hstep as <- _. cbn [roomManager].
    by eapply hostsConsistent_everywhere_createRoom.
  - destruct (generateRoomCode _ _) as [[rm code]|] eqn:Hgen; [|discriminate].
    cbn in Hstep. injection Hstep as <- _. cbn [roomManager].
    destruct (generateRoomCode_spec _ _ _ _ Hgen) as (_ & _ & Hrooms & _).
    by rewrite Hrooms.
  - destruct (startGame _ _ _ _) as [[gm result]|]; [|discriminate].
    cbn in Hstep. by injection Hstep as <- _.
  - injection Hstep as <- _. by apply hostsConsistent_everywhere_addPlayer.
  - injection Hstep as <- _. by apply hostsConsistent_everywhere_removePlayer.
  - destruct playerId; injection Hstep as <- _; [|exact IH].
    by apply hostsConsistent_everywhere_removePlayer.
Qed.

(** X26.  In every state the server reaches, a room has at most one
    player with the host flag, and that player is the one the room's
    [hostId] names. *)
Theorem never_two_hosts (Math_sin : Z → Q) (s : Server) (code : string)
    (room : Room.t) :
  reachable Math_sin s →
  getRoom code (roomManager s) = Some room →
  (length (hosts room) ≤ 1)%nat
  ∧ ∀ player, player ∈ hosts room → Player.id player = Room.hostId room.
Proof.
  intros Hreach Hget.
  pose proof (get_Forall (λ entry : string * Room.t, hostsConsistent entry.2)
                _ _ _ (reachable_hostsConsistent _ _ Hreach) Hget)
    as [Hnd Hall].
  cbn in Hnd, Hall. unfold hosts. split.
  - apply (flagged_at_most_one Player.isHost _ (Room.hostId room)); [done|].
    eapply Forall_impl; [exact Hall|]. by intros entry [_ ?].
  - intros player Hin. apply list_elem_of_In, filter_In in Hin as [Hin Hflag].
    apply list_elem_of_In, get_values in Hin as [key Hin].
    rewrite Forall_forall in Hall. destruct (Hall _ Hin) as [Hid Hhost].
    cbn in *. by rewrite Hid, Hhost.
Qed.

Lemma serverWithHost_reachable : reachable sineAtZero serverWithHost.
Proof.
  apply (reachable_step sineAtZero
           (mkServer (addPlayerToRoom "ለምን-ቢንጎ" "3f0c-room" 7%nat
                        (roomManager serverWithRoom))
              (gameManager serverWithRoom))
           (WsJoin "ለምን-ቢንጎ" "b2d4-player" 8%nat) serverWithHost NoBody);
    [|reflexivity].
  apply (reachable_step sineAtZero serverWithRoom
           (WsJoin "ለምን-ቢንጎ" "3f0c-room" 7%nat) _ NoBody);
    [|reflexivity].
  exact serverWithRoom_reachable.
Qed.

Lemma never_two_hosts_witness :
  ∃ room,
    getRoom "ለምን-ቢንጎ" (roomManager serverWithHost) = Some room
    ∧ JsMap.size (Room.players room) = 2
    ∧ (length (hosts room) ≤ 1)%nat
    ∧ ∀ player, player ∈ hosts room → Player.id player = "3f0c-room".
Proof.
  destruct (getRoom "ለምን-ቢንጎ" (roomManager serverWithHost)) as [room|] eqn:Hget;
    [|vm_compute in Hget; discriminate].
  assert (Hroom : JsMap.size (Room.players room) = 2
                  ∧ Room.hostId room = "3f0c-room").
  { vm_compute in Hget. injection Hget as <-. by split. }
  destruct Hroom as [Hsize Hhost].
  destruct (never_two_hosts sineAtZero serverWithHost "ለምን-ቢንጎ" room
              serverWithHost_reachable Hget) as [Hone Hid].
  exists room. split; [reflexivity|]. split; [exact Hsize|].
  split; [exact Hone|]. intros player Hin. rewrite <- Hhost. by apply Hid.
Defined.

(** ** When a start returns *)

(** X27.  For a game that has not started and has two players or more,
    [startGame] returns, given fuel, exactly when the game is of type
    '90ball' and its seed makes [random(1, 3)] equal to [1]; it then
    reports success with a nine-cell board. *)
Theorem startGame_returns_iff (Math_sin : Z → Q) (roomCode : string)
    (gm : GameManager) (game : Game.t) :
  getGame roomCode gm = Some game →
  Game.gameStarted game = false →
  2 ≤ JsMap.size (Game.players game) →
  ((∃ fuel gm' result,
      startGame Math_sin fuel roomCode gm = Some (gm', result))
   ↔ Game.type game = "90ball"
     ∧ random Math_sin (Game.boardSeed game) 1 3 = 1)
  ∧ (Game.type game = "90ball" →
     random Math_sin (Game.boardSeed game) 1 3 = 1 →
     ∀ fuel, ∃ gm' board,
       startGame Math_sin (S fuel) roomCode gm
       = Some (gm', StartResult.mk true (Some board) None)
       ∧ length board = 9%nat).
Proof.
  intros Hget Hs Hge. split; [split|].
  - intros (fuel & gm' & result & Hstart).
    destruct (decide (Game.type game = "90ball")) as [Hty|Hty].
    + split; [done|].
      destruct (decide (random Math_sin (Game.boardSeed game) 1 3 = 1)); [done|].
      rewrite (startGame_stuck _ _ _ _ game) in Hstart by auto. discriminate.
    + rewrite (startGame_stuck _ _ _ _ game) in Hstart by auto. discriminate.
  - intros [Hty Hr].
    destruct (startGame_90ball_returns Math_sin 0 _ _ _ Hget Hs Hge Hty Hr)
      as (gm' & board & Hstart & _).
    by exists 1%nat, gm', (StartResult.mk true (Some board) None).
  - intros Hty Hr fuel. by eapply startGame_90ball_returns.
Qed.

Lemma startGame_returns_iff_witness :
  ∃ gm' board,
    startGame sineAtZero 3 "room" (lobby "90ball")
    = Some (gm', StartResult.mk true (Some board) None)
    ∧ length board = 9%nat.
Proof.
  destruct (getGame "room" (lobby "90ball")) as [game|] eqn:Hget;
    [|vm_compute in Hget; discriminate].
  assert (Hgame : Game.gameStarted game = false
                  ∧ 2 ≤ JsMap.size (Game.players game)
                  ∧ Game.type game = "90ball"
                  ∧ random sineAtZero (Game.boardSeed game) 1 3 = 1).
  { vm_compute in Hget. injection Hget as <-.
    split; [reflexivity|]. split; [by vm_compute|]. split; reflexivity. }
  destruct Hgame as (Hs & Hge & Hty & Hr).
  exact (proj2 (startGame_returns_iff sineAtZero "room" (lobby "90ball") game
                  Hget Hs Hge) Hty Hr 2%nat).
Defined.
